(** * video2doc: the transcription-to-document pipeline of [main.py]

    A shallow embedding of [src/main.py] and the properties its
    specification states about it.

    Conventions of the embedding:
    - a Python [str] is the list of its Unicode code points ([len] is
      [length], slicing is [firstn]); literals that are not ASCII are
      written by code point;
    - a Python [float] is [pyfloat]: a finite value carried by the rational
      it denotes, or one of the IEEE specials.  [//], [%] and [int()] act
      on the denoted value exactly; this is what CPython computes for the
      magnitudes a media duration has (its quotient is exact while it fits
      the 53-bit significand);
    - a Python exception is a value of [exn], and code that may raise lives
      in the [may_raise] monad; code that also prints, touches the file system
      or runs an external tool lives in the state-and-exception monad [M]
      over [world]. *)

From Stdlib Require Import String Ascii ZArith NArith QArith Qround List Bool Lia.
Import ListNotations.

Set Implicit Arguments.

Local Open Scope Z_scope.

(** ** Strings *)

(** a character is its code point, a string the list of its characters *)
Abbreviation char := N (only parsing).
Abbreviation str := (list N) (only parsing).

Definition lit (s : string) : str :=
  List.map N_of_ascii (list_ascii_of_string s).

Definition char_eqb (a b : char) : bool := N.eqb a b.

(** [str.isspace] on one code point: the characters [str.strip()] removes. *)
Definition is_space (c : char) : bool :=
  ((9 <=? c) && (c <=? 13) || (28 <=? c) && (c <=? 32)
   || (c =? 133) || (c =? 160) || (c =? 5760)
   || (8192 <=? c) && (c <=? 8202)
   || (c =? 8232) || (c =? 8233) || (c =? 8239) || (c =? 8287)
   || (c =? 12288))%N.

Fixpoint lstrip (s : str) : str :=
  match s with
  | c :: s' => if is_space c then lstrip s' else s
  | [] => []
  end.

Definition rstrip (s : str) : str := rev (lstrip (rev s)).

(** [s.strip()] *)
Definition strip (s : str) : str := rstrip (lstrip s).

Definition pipe : char := 124%N.
Definition backslash : char := 92%N.

(** [s.replace("|", "\\|")] *)
Definition replace_pipe (s : str) : str :=
  flat_map (fun c => if char_eqb c pipe then [backslash; pipe] else [c]) s.

(** ["\n".join(lines)] *)
Definition newline : char := 10%N.

Fixpoint join_lines (lines : list str) : str :=
  match lines with
  | [] => []
  | [l] => l
  | l :: rest => l ++ newline :: join_lines rest
  end.

(** ** Integers to decimal text *)

Fixpoint digits_le (fuel : nat) (n : N) : list N :=
  match fuel with
  | O => []
  | S f => (n mod 10)%N :: (if (n <? 10)%N then [] else digits_le f (n / 10)%N)
  end.

Definition digit_char (d : N) : char := (48 + d)%N.

(** decimal digits of a natural number, most significant first *)
Definition digits (n : N) : str :=
  List.map digit_char (rev (digits_le (S (N.to_nat (N.log2 n))) n)).

Definition minus_sign : char := 45%N.

(** [str(z)] and the [{z}] field of an f-string *)
Definition str_of_int (z : Z) : str :=
  match z with
  | Zneg p => minus_sign :: digits (Npos p)
  | _ => digits (Z.to_N z)
  end.

Definition zero_pad (width : nat) (ds : str) : str :=
  repeat (digit_char 0) (width - length ds) ++ ds.

(** the [{z:02d}] field of an f-string: sign-aware zero padding to width 2 *)
Definition format_02d (z : Z) : str :=
  match z with
  | Zneg p => minus_sign :: zero_pad 1 (digits (Npos p))
  | _ => zero_pad 2 (digits (Z.to_N z))
  end.

(** reading a decimal numeral back *)
Fixpoint value_le (ds : list N) : N :=
  match ds with
  | [] => 0
  | d :: ds' => d + 10 * value_le ds'
  end%N.

Definition decimal_value (s : str) : N :=
  value_le (rev (List.map (fun c => c - 48)%N s)).

(** ** Exceptions *)

Inductive exn : Type :=
| ValueError
| OverflowError
| SystemExit (code : Z)
| ToolError (what : str).

Inductive may_raise (A : Type) : Type :=
| Ok (a : A)
| Raise (e : exn).

Arguments Ok {A} a.
Arguments Raise {A} e.

Definition rbind {A B} (m : may_raise A) (k : A -> may_raise B) : may_raise B :=
  match m with
  | Ok a => k a
  | Raise e => Raise e
  end.

Declare Scope result_scope.
Delimit Scope result_scope with res.
Notation "x <- m ;; k" := (rbind m (fun x => k))
  (at level 61, m at next level, right associativity) : result_scope.

(** ** Floats *)

Inductive pyfloat : Type :=
| Finite (q : Q)
| PInf
| NInf
| NaN.


(** [x // d] for a positive integer literal [d] *)
Definition float_floordiv (x : pyfloat) (d : Z) : pyfloat :=
  match x with
  | Finite q => Finite (inject_Z (Qfloor (q / inject_Z d)))
  | _ => NaN
  end.

(** [x % d] for a positive integer literal [d] *)
Definition float_mod (x : pyfloat) (d : Z) : pyfloat :=
  match x with
  | Finite q => Finite (q - inject_Z d * inject_Z (Qfloor (q / inject_Z d)))
  | _ => NaN
  end.

Definition Qtrunc (q : Q) : Z :=
  if Qle_bool 0 q then Qfloor q else Qceiling q.

(** [int(x)]: truncation toward zero; raises on the specials *)
Definition py_int (x : pyfloat) : may_raise Z :=
  match x with
  | Finite q => Ok (Qtrunc q)
  | PInf | NInf => Raise OverflowError
  | NaN => Raise ValueError
  end.

(** ** Timestamp formatter *)

Definition colon : str := lit ":".

(** [format_timestamp], main.py lines 41-46 *)
Definition format_timestamp (seconds : pyfloat) : may_raise str :=
  (h <- py_int (float_floordiv seconds 3600) ;;
   m <- py_int (float_floordiv (float_mod seconds 3600) 60) ;;
   s <- py_int (float_mod seconds 60) ;;
   Ok (format_02d h ++ colon ++ format_02d m ++ colon ++ format_02d s))%res.

Definition u_fen : char := 20998%N.   (* U+5206, minutes *)
Definition u_miao : char := 31186%N.  (* U+79D2, seconds *)

(** [format_duration], main.py lines 49-55 *)
Definition format_duration (seconds : pyfloat) : may_raise str :=
  (m <- py_int (float_floordiv seconds 60) ;;
   s <- py_int (float_mod seconds 60) ;;
   if 0 <? m
   then Ok (str_of_int m ++ [u_fen] ++ str_of_int s ++ [u_miao])
   else Ok (str_of_int s ++ [u_miao]))%res.

(** ** Text literals of the program

    Each constant is the fixed part of one f-string or literal of main.py;
    the code points above U+007F are the program's Chinese labels and
    emoji. *)

Local Open Scope N_scope.

Definition hdr_generated : str := lit "> " ++ [0x1F4C5] ++ lit " " ++ [0x751F; 0x6210; 0x65F6; 0x95F4] ++ lit ": ".
Definition hdr_duration : str := lit "> " ++ [0x1F3AC] ++ lit " " ++ [0x89C6; 0x9891; 0x65F6; 0x957F] ++ lit ": ".
Definition hdr_language : str := lit "> " ++ [0x1F310] ++ lit " " ++ [0x68C0; 0x6D4B; 0x8BED; 0x8A00] ++ lit ": ".
Definition hdr_model : str := lit "> " ++ [0x1F916] ++ lit " " ++ [0x8F6C; 0x5F55; 0x6A21; 0x578B] ++ lit ": Whisper".
Definition h2_transcript : str := lit "## " ++ [0x8F6C; 0x5F55; 0x5185; 0x5BB9].
Definition h2_appendix : str := lit "## " ++ [0x9644; 0x5F55; 0xFF1A; 0x5B8C; 0x6574; 0x65F6; 0x95F4; 0x8F74].
Definition table_head : str := lit "| " ++ [0x65F6; 0x95F4] ++ lit " | " ++ [0x5185; 0x5BB9] ++ lit " |".
Definition table_rule : str := lit "|------|------|".
Definition arrow : str := lit " " ++ [0x2192] ++ lit " ".
Definition info_load_model : str := lit "[" ++ [0x4FE1; 0x606F] ++ lit "] " ++ [0x52A0; 0x8F7D] ++ lit " Whisper " ++ [0x6A21; 0x578B] ++ lit ": ".
Definition info_start_transcribe : str := lit "[" ++ [0x4FE1; 0x606F] ++ lit "] " ++ [0x5F00; 0x59CB; 0x8F6C; 0x5F55] ++ lit "...".
Definition info_duration : str := lit "[" ++ [0x4FE1; 0x606F] ++ lit "] " ++ [0x89C6; 0x9891; 0x65F6; 0x957F] ++ lit ": ".
Definition info_input : str := lit "[" ++ [0x4FE1; 0x606F] ++ lit "] " ++ [0x8F93; 0x5165; 0x89C6; 0x9891] ++ lit ": ".
Definition info_output : str := lit "[" ++ [0x4FE1; 0x606F] ++ lit "] " ++ [0x8F93; 0x51FA; 0x6587; 0x6863] ++ lit ": ".
Definition info_extracted : str := lit "[" ++ [0x4FE1; 0x606F] ++ lit "] " ++ [0x97F3; 0x9891; 0x5DF2; 0x63D0; 0x53D6] ++ lit ": ".
Definition info_saved : str := lit "[" ++ [0x5B8C; 0x6210] ++ lit "] " ++ [0x6587; 0x6863; 0x5DF2; 0x4FDD; 0x5B58] ++ lit ": ".
Definition step_1 : str := lit "[" ++ [0x6B65; 0x9AA4] ++ lit " 1/3] " ++ [0x63D0; 0x53D6; 0x97F3; 0x9891] ++ lit "...".
Definition step_2 : str := lit "[" ++ [0x6B65; 0x9AA4] ++ lit " 2/3] " ++ [0x8BED; 0x97F3; 0x8F6C; 0x6587; 0x5B57] ++ lit "...".
Definition step_3 : str := lit "[" ++ [0x6B65; 0x9AA4] ++ lit " 3/3] " ++ [0x751F; 0x6210] ++ lit " Markdown...".
Definition warn_probe_stdout : str := lit "[" ++ [0x8B66; 0x544A] ++ lit "] ffprobe " ++ [0x6807; 0x51C6; 0x8F93; 0x51FA] ++ lit ": ".
Definition warn_probe_stderr : str := lit "[" ++ [0x8B66; 0x544A] ++ lit "] ffprobe " ++ [0x9519; 0x8BEF; 0x8F93; 0x51FA] ++ lit ": ".
Definition warn_probe_parse : str := lit "[" ++ [0x8B66; 0x544A] ++ lit "] " ++ [0x65E0; 0x6CD5; 0x89E3; 0x6790; 0x89C6; 0x9891; 0x65F6; 0x957F; 0xFF0C; 0x8FD4; 0x56DE] ++ lit " 0.0 " ++ [0x4F5C; 0x4E3A; 0x9ED8; 0x8BA4; 0x503C; 0x3002; 0x89C6; 0x9891; 0x6587; 0x4EF6] ++ lit ": ".
Definition err_ffmpeg : str := lit "[" ++ [0x9519; 0x8BEF] ++ lit "] ffmpeg " ++ [0x63D0; 0x53D6; 0x97F3; 0x9891; 0x5931; 0x8D25] ++ lit ":" ++ [0xA].
Definition err_missing : str := lit "[" ++ [0x9519; 0x8BEF] ++ lit "] " ++ [0x89C6; 0x9891; 0x6587; 0x4EF6; 0x4E0D; 0x5B58; 0x5728] ++ lit ": ".

Local Close Scope N_scope.

(** ** Data model *)

Definition path := str.

(** one element of [result["segments"]]; the word-level timing Whisper
    attaches is never read by the program and is left out *)
Record Segment : Type := {
  seg_start : pyfloat;
  seg_end : pyfloat;
  seg_text : str
}.

(** the dict returned by [model.transcribe]; a key that is absent is
    [None], which [dict.get] replaces by its default *)
Record Transcription : Type := {
  tr_language : option str;
  tr_segments : option (list Segment)
}.

(** [d.get(key, default)] *)
Definition dict_get {A} (field : option A) (default : A) : A :=
  match field with
  | Some a => a
  | None => default
  end.

(** what the program takes from pathlib and from the [float] constructor *)
Class Platform : Type := {
  path_stem : path -> str;
  path_resolve : path -> path;
  path_with_suffix_md : path -> path;
  float_of_str : str -> option pyfloat
}.

(** ** Document generator *)

(** a [for x in xs:] loop over a body that may raise, threading the value
    the body updates *)
Fixpoint for_each {A S} (body : S -> A -> may_raise S) (xs : list A) (s : S)
  : may_raise S :=
  match xs with
  | [] => Ok s
  | x :: xs' => (s' <- body s x ;; for_each body xs' s')%res
  end.

(** body of the first loop, main.py lines 103-108 *)
Definition body_step (lines : list str) (seg : Segment) : may_raise (list str) :=
  (start <- format_timestamp (seg_start seg) ;;
   end_ <- format_timestamp (seg_end seg) ;;
   let text := strip (seg_text seg) in
   Ok (lines ++ [lit "**[" ++ start ++ arrow ++ end_ ++ lit "]**"]
             ++ [text]
             ++ [[]]))%res.

Definition ellipsis : str := lit "...".

(** the text of a table cell, main.py lines 122-125 *)
Definition cell_text (raw : str) : str :=
  let text := replace_pipe (strip raw) in
  if (80 <? length text)%nat then firstn 77 text ++ ellipsis else text.

(** body of the second loop, main.py lines 121-126 *)
Definition row_step (lines : list str) (seg : Segment) : may_raise (list str) :=
  (start <- format_timestamp (seg_start seg) ;;
   let text := cell_text (seg_text seg) in
   Ok (lines ++ [lit "| " ++ start ++ lit " | " ++ text ++ lit " |"]))%res.

(** the list [lines] of [generate_markdown] just before it is joined;
    [now] is the text [datetime.now().strftime(...)] returns *)
Definition markdown_lines `{Platform} (now : str) (result : Transcription)
    (video_path : path) (video_duration : pyfloat) : may_raise (list str) :=
  (let title := path_stem video_path in
   let detected_language := dict_get (tr_language result) (lit "unknown") in
   let segments := dict_get (tr_segments result) [] in
   duration <- format_duration video_duration ;;
   let lines :=
     [ lit "# " ++ title;
       [];
       hdr_generated ++ now;
       hdr_duration ++ duration;
       hdr_language ++ detected_language;
       hdr_model;
       [];
       lit "---";
       [];
       h2_transcript;
       [] ] in
   lines <- for_each body_step segments lines ;;
   let lines := lines ++ [ lit "---"; []; h2_appendix; []; table_head; table_rule ] in
   lines <- for_each row_step segments lines ;;
   let lines := lines ++ [[]] in
   Ok lines)%res.

(** [generate_markdown], main.py lines 77-129 *)
Definition generate_markdown `{Platform} (now : str) (result : Transcription)
    (video_path : path) (video_duration : pyfloat) : may_raise str :=
  (lines <- markdown_lines now result video_path video_duration ;;
   Ok (join_lines lines))%res.

(** ** The world the orchestrator acts on *)

(** [subprocess.CompletedProcess] with [capture_output=True, text=True] *)
Record completed : Type := {
  returncode : Z;
  proc_stdout : str;
  proc_stderr : str
}.

(** what the run did outside the interpreter, oldest first *)
Inductive event : Type :=
| RanFfprobe (video : path)
| MadeTempfile (audio : path)
| RanFfmpeg (video audio : path)
| LoadedModel (name : str)
| RanTranscribe (audio : path)
| WroteText (target : path) (content : str)
| Unlinked (target : path).

Record world : Type := {
  files : list path;        (* the paths that exist on disk *)
  out : list str;           (* what was printed to sys.stdout, oldest first *)
  err : list str;           (* what was printed to sys.stderr, oldest first *)
  trace : list event
}.

(** The external collaborators.  Each one sees the disk and may change it
    in any way, and each call may raise; nothing else is assumed. *)
Class Tools : Type := {
  ffprobe : path -> list path -> may_raise completed * list path;
  ffmpeg : path -> path -> list path -> may_raise completed * list path;
  temp_name : list path -> path;
  whisper_load_model : str -> list path -> may_raise unit * list path;
  whisper_transcribe :
    str -> path -> option str -> list path -> may_raise Transcription * list path;
  write_text : path -> str -> list path -> may_raise unit * list path;
  clock : str
}.

Definition M (A : Type) : Type := world -> may_raise A * world.

Definition ret {A} (a : A) : M A := fun w => (Ok a, w).

Definition bind {A B} (m : M A) (k : A -> M B) : M B :=
  fun w =>
    match m w with
    | (Ok a, w') => k a w'
    | (Raise e, w') => (Raise e, w')
    end.

Definition raise {A} (e : exn) : M A := fun w => (Raise e, w).

Definition lift {A} (r : may_raise A) : M A := fun w => (r, w).

Declare Scope M_scope.
Delimit Scope M_scope with M.
Notation "x <- m ;; k" := (bind m (fun x => k))
  (at level 61, m at next level, right associativity) : M_scope.
Notation "m ;; k" := (bind m (fun _ => k))
  (at level 61, right associativity) : M_scope.

(** [try: body finally: cleanup] *)
Definition try_finally {A} (body : M A) (cleanup : M unit) : M A :=
  fun w =>
    let (r, w1) := body w in
    match cleanup w1 with
    | (Ok _, w2) => (r, w2)
    | (Raise e, w2) => (Raise e, w2)
    end.

(** [print(line)] and [print(line, file=sys.stderr)] *)
Definition print (line : str) : M unit :=
  fun w => (Ok tt, {| files := files w; out := out w ++ [line];
                      err := err w; trace := trace w |}).

Definition eprint (line : str) : M unit :=
  fun w => (Ok tt, {| files := files w; out := out w;
                      err := err w ++ [line]; trace := trace w |}).

(** [sys.exit(code)] *)
Definition sys_exit {A} (code : Z) : M A := raise (SystemExit code).

(** an external call: it is recorded, then acts on the disk *)
Definition external {A} (ev : event)
    (call : list path -> may_raise A * list path) : M A :=
  fun w =>
    let (r, fs) := call (files w) in
    (r, {| files := fs; out := out w; err := err w;
           trace := trace w ++ [ev] |}).

Fixpoint str_eqb (a b : str) : bool :=
  match a, b with
  | [], [] => true
  | x :: a', y :: b' => char_eqb x y && str_eqb a' b'
  | _, _ => false
  end.

Definition on_disk (p : path) (fs : list path) : bool :=
  existsb (str_eqb p) fs.

(** [p.exists()] *)
Definition path_exists (p : path) : M bool :=
  fun w => (Ok (on_disk p (files w)), w).

(** [p.unlink()] *)
Definition path_unlink (p : path) : M unit :=
  external (Unlinked p)
    (fun fs => (Ok tt, filter (fun f => negb (str_eqb p f)) fs)).

(** [with tempfile.NamedTemporaryFile(suffix=".wav", delete=False) as tmp:
       audio_path = Path(tmp.name)]: the file is created and kept *)
Definition named_temporary_file `{Tools} : M path :=
  fun w =>
    let p := temp_name (files w) in
    external (MadeTempfile p) (fun fs => (Ok p, p :: fs)) w.

(** ** Audio normalizer, main.py lines 22-38 *)
Definition extract_audio `{Tools} (video_path audio_path : path) : M bool :=
  (result <- external (RanFfmpeg video_path audio_path)
                      (ffmpeg video_path audio_path) ;;
   if negb (returncode result =? 0)
   then eprint (err_ffmpeg ++ proc_stderr result) ;; ret false
   else ret true)%M.

(** ** Transcription engine adapter, main.py lines 58-74 *)
Definition transcribe_audio `{Tools} (audio_path : path) (model_name : str)
    (language : option str) : M Transcription :=
  (print (info_load_model ++ model_name) ;;
   external (LoadedModel model_name) (whisper_load_model model_name) ;;
   print info_start_transcribe ;;
   external (RanTranscribe audio_path)
            (whisper_transcribe model_name audio_path language))%M.

Definition nonempty (s : str) : bool :=
  match s with
  | [] => false
  | _ => true
  end.

(** ** Duration probe, main.py lines 132-159 *)
Definition get_video_duration `{Platform} `{Tools} (video_path : path)
  : M pyfloat :=
  (result <- external (RanFfprobe video_path) (ffprobe video_path) ;;
   match float_of_str (strip (proc_stdout result)) with
   | Some duration => ret duration
   | None =>
       eprint (warn_probe_parse ++ video_path) ;;
       (if nonempty (strip (proc_stdout result))
        then eprint (warn_probe_stdout ++ strip (proc_stdout result))
        else ret tt) ;;
       (if nonempty (strip (proc_stderr result))
        then eprint (warn_probe_stderr ++ strip (proc_stderr result))
        else ret tt) ;;
       ret (Finite 0)
   end)%M.

(** ** Pipeline orchestrator, main.py lines 162-238 *)

(** the namespace [parser.parse_args()] returns *)
Record Args : Type := {
  args_video : path;
  args_output : option path;
  args_model : str;
  args_language : option str
}.

(** lines 217-233, the body of the [try] *)
Definition pipeline_body `{Platform} `{Tools} (args : Args)
    (video_path output_path audio_path : path) (video_duration : pyfloat)
  : M unit :=
  (print step_1 ;;
   extracted <- extract_audio video_path audio_path ;;
   (if negb extracted then sys_exit 1 else ret tt) ;;
   print (info_extracted ++ audio_path) ;;
   print step_2 ;;
   result <- transcribe_audio audio_path (args_model args) (args_language args) ;;
   print step_3 ;;
   markdown <- lift (generate_markdown clock result video_path video_duration) ;;
   external (WroteText output_path markdown) (write_text output_path markdown) ;;
   print (info_saved ++ output_path))%M.

(** lines 236-238, the body of the [finally] *)
Definition cleanup `{Tools} (audio_path : path) : M unit :=
  (present <- path_exists audio_path ;;
   if present then path_unlink audio_path else ret tt)%M.

Definition main `{Platform} `{Tools} (args : Args) : M unit :=
  (let video_path := path_resolve (args_video args) in
   present <- path_exists video_path ;;
   (if negb present
    then eprint (err_missing ++ video_path) ;; sys_exit 1
    else ret tt) ;;
   let output_path :=
     match args_output args with
     | None => path_with_suffix_md video_path
     | Some o => path_resolve o
     end in
   print (info_input ++ video_path) ;;
   print (info_output ++ output_path) ;;
   video_duration <- get_video_duration video_path ;;
   shown <- lift (format_duration video_duration) ;;
   print (info_duration ++ shown) ;;
   audio_path <- named_temporary_file ;;
   try_finally
     (pipeline_body args video_path output_path audio_path video_duration)
     (cleanup audio_path))%M.

(** the status the interpreter exits with: 0 when [main] returns, the
    code of [sys.exit], 1 for any other exception that escapes *)
Definition exit_status (r : may_raise unit) : Z :=
  match r with
  | Ok _ => 0
  | Raise (SystemExit code) => code
  | Raise _ => 1
  end.

Definition run `{Platform} `{Tools} (args : Args) (w : world)
  : Z * world :=
  let (r, w') := main args w in (exit_status r, w').

(** the world a run starts in: the disk as it is, nothing printed, nothing
    done yet *)
Definition boot (fs : list path) : world :=
  {| files := fs; out := []; err := []; trace := [] |}.

(** ** Vocabulary of the properties *)

Definition is_finite (x : pyfloat) : bool :=
  match x with
  | Finite _ => true
  | _ => false
  end.

Definition seg_finite (seg : Segment) : bool :=
  is_finite (seg_start seg) && is_finite (seg_end seg).

Definition is_digit (c : char) : bool := ((48 <=? c) && (c <=? 57))%N.

(** every [|] of [s] comes right after a backslash *)
Definition pipes_escaped (s : str) : Prop :=
  forall i, nth_error s i = Some pipe ->
            exists j, i = S j /\ nth_error s j = Some backslash.

(** the three lines the first loop appends for [seg] *)
Definition body_block (seg : Segment) (block : list str) : Prop :=
  exists start end_,
    format_timestamp (seg_start seg) = Ok start /\
    format_timestamp (seg_end seg) = Ok end_ /\
    block = [ lit "**[" ++ start ++ arrow ++ end_ ++ lit "]**";
              strip (seg_text seg);
              [] ].

(** the line the second loop appends for [seg], around the cell [cell] *)
Definition table_row (seg : Segment) (cell : str) (row : str) : Prop :=
  exists start,
    format_timestamp (seg_start seg) = Ok start /\
    row = lit "| " ++ start ++ lit " | " ++ cell ++ lit " |".

(** the six lines between the body and the rows, main.py lines 111-118 *)
Definition appendix_head : list str :=
  [ lit "---"; []; h2_appendix; []; table_head; table_rule ].

(** where the lines of segment number [i] (from 0) sit in [lines], when
    there are [n] segments: eleven header lines, three lines per body
    block, six lines of appendix head, one line per row *)
Definition body_range_line (lines : list str) (i : nat) : option str :=
  nth_error lines (11 + 3 * i).

Definition body_text_line (lines : list str) (i : nat) : option str :=
  nth_error lines (12 + 3 * i).

Definition appendix_row_line (lines : list str) (n i : nat) : option str :=
  nth_error lines (17 + 3 * n + i).

Definition is_temp_event (ev : event) : bool :=
  match ev with
  | MadeTempfile _ => true
  | _ => false
  end.

Definition is_engine_event (ev : event) : bool :=
  match ev with
  | LoadedModel _ | RanTranscribe _ => true
  | _ => false
  end.

(** every temporary file made so far is one of [ps] *)
Definition temps_within (ps : list path) (w : world) : Prop :=
  forall q, In (MadeTempfile q) (trace w) -> In q ps.

(** every temporary file made so far is gone from the disk *)
Definition temps_deleted (w : world) : Prop :=
  forall q, In (MadeTempfile q) (trace w) -> on_disk q (files w) = false.

(** [m] keeps the invariant [I], whether it returns or raises *)
Definition keeps {A} (I : world -> Prop) (m : M A) : Prop :=
  forall w, I w -> I (snd (m w)).

(** the duration the probe yields for the output [probe] of the tool *)
Definition probed_duration `{Platform} (probe : completed) : pyfloat :=
  match float_of_str (strip (proc_stdout probe)) with
  | Some duration => duration
  | None => Finite 0
  end.

(** the warnings the probe prints for the output [probe] when it does not
    parse *)
Definition probe_warnings (video_path : path) (probe : completed) : list str :=
  [warn_probe_parse ++ video_path]
  ++ (if nonempty (strip (proc_stdout probe))
      then [warn_probe_stdout ++ strip (proc_stdout probe)] else [])
  ++ (if nonempty (strip (proc_stderr probe))
      then [warn_probe_stderr ++ strip (proc_stderr probe)] else []).

(** scenarios for the external tools *)
Definition probe_prints `{Tools} (probe : completed) : Prop :=
  forall video fs, fst (ffprobe video fs) = Ok probe.

Definition decoder_succeeds `{Tools} : Prop :=
  forall video audio fs,
    exists c, fst (ffmpeg video audio fs) = Ok c /\ returncode c = 0.

Definition decoder_fails `{Tools} : Prop :=
  forall video audio fs,
    exists c, fst (ffmpeg video audio fs) = Ok c /\ returncode c <> 0.

Definition engine_returns `{Tools} (tr : Transcription) : Prop :=
  (forall name fs, fst (whisper_load_model name fs) = Ok tt) /\
  (forall name audio language fs,
     fst (whisper_transcribe name audio language fs) = Ok tr).

Definition writer_succeeds `{Tools} : Prop :=
  forall target content fs, fst (write_text target content fs) = Ok tt.



(** the external actions of a complete run, in the order of the pipeline *)
Definition pipeline_events (video audio : path) (model : str) (output : path)
    (doc : str) : list event :=
  [ RanFfprobe video; MadeTempfile audio; RanFfmpeg video audio;
    LoadedModel model; RanTranscribe audio; WroteText output doc ].

(** further scenarios for the external tools *)
Definition probe_cannot_run `{Tools} (e : exn) : Prop :=
  forall video fs, fst (ffprobe video fs) = Raise e.

Definition model_load_raises `{Tools} (e : exn) : Prop :=
  forall name fs, fst (whisper_load_model name fs) = Raise e.

Definition transcription_raises `{Tools} (e : exn) : Prop :=
  (forall name fs, fst (whisper_load_model name fs) = Ok tt) /\
  (forall name audio language fs,
     fst (whisper_transcribe name audio language fs) = Raise e).

Definition is_write_event (ev : event) : bool :=
  match ev with
  | WroteText _ _ => true
  | _ => false
  end.

(** ** A platform and tools to run the program on examples *)

(** pathlib on plain names, and a [float] that reads unsigned decimal
    integers only *)
Definition demo_platform : Platform := {|
  path_stem := fun p => p;
  path_resolve := fun p => p;
  path_with_suffix_md := fun p => p ++ lit ".md";
  float_of_str := fun s =>
    if nonempty s && forallb is_digit s
    then Some (Finite (inject_Z (Z.of_N (decimal_value s))))
    else None
|}.

(** tools that leave the disk alone, apart from the decoder overwriting its
    target and the writer creating the document *)
Definition demo_tools (probe : completed) (decoder_status : Z)
    (engine : may_raise Transcription) : Tools := {|
  ffprobe := fun _ fs => (Ok probe, fs);
  ffmpeg := fun _ audio fs =>
    (Ok {| returncode := decoder_status; proc_stdout := [];
           proc_stderr := lit "ffmpeg: diagnostics" |},
     audio :: fs);
  temp_name := fun _ => lit "/tmp/tmpk3v9.wav";
  whisper_load_model := fun _ fs => (Ok tt, fs);
  whisper_transcribe := fun _ _ _ fs => (engine, fs);
  write_text := fun target _ fs => (Ok tt, target :: fs);
  clock := lit "2024-05-01 12:00:00"
|}.

Definition demo_segments : list Segment :=
  [ {| seg_start := Finite 0; seg_end := Finite 2.5;
       seg_text := lit " Hello | world " |};
    {| seg_start := Finite 2.5; seg_end := Finite 3661;
       seg_text := lit " " ++ repeat 97%N 85 |} ].

Definition demo_transcription : Transcription :=
  {| tr_language := Some (lit "en"); tr_segments := Some demo_segments |}.

Definition demo_args : Args :=
  {| args_video := lit "talk.mp4"; args_output := None;
     args_model := lit "large-v3"; args_language := None |}.

Definition demo_probe : completed :=
  {| returncode := 0; proc_stdout := lit "N/A" ++ [newline];
     proc_stderr := [] |}.

Definition demo_now : str := lit "2024-05-01 12:00:00".

(** the document of the demo transcription, empty if generation raised *)
Definition demo_doc : str :=
  match @generate_markdown demo_platform demo_now demo_transcription
          (lit "talk") (Finite 125) with
  | Ok doc => doc
  | Raise _ => []
  end.

(** tools whose probing tool cannot be started *)
Definition no_probe_tools (e : exn) : Tools := {|
  ffprobe := fun _ fs => (Raise e, fs);
  ffmpeg := fun _ audio fs =>
    (Ok {| returncode := 0; proc_stdout := []; proc_stderr := [] |},
     audio :: fs);
  temp_name := fun _ => lit "/tmp/tmpk3v9.wav";
  whisper_load_model := fun _ fs => (Ok tt, fs);
  whisper_transcribe := fun _ _ _ fs => (Ok demo_transcription, fs);
  write_text := fun target _ fs => (Ok tt, target :: fs);
  clock := demo_now
|}.


(** a transcription with a segment that never ends *)
Definition endless_transcription : Transcription :=
  {| tr_language := Some (lit "en");
     tr_segments := Some [ {| seg_start := Finite 0; seg_end := PInf;
                              seg_text := lit "hum" |} ] |}.

(** * Properties *)

(** ** Floor arithmetic behind [//] and [%] *)

Lemma Qfloor_div_pos (q : Q) (d : positive) :
  Qfloor (q / inject_Z (Zpos d)) = Qfloor q / Zpos d.
Proof.
  destruct q as [a b]. unfold Qdiv, Qmult, Qinv, inject_Z. simpl.
  rewrite Z.mul_1_r, Pos2Z.inj_mul. symmetry. apply Z.div_div; lia.
Qed.

Lemma Qfloor_sub_Z (q : Q) (d k : Z) :
  Qfloor (q - inject_Z d * inject_Z k) = Qfloor q - d * k.
Proof.
  destruct q as [a b]. unfold Qminus, Qplus, Qopp, Qmult, inject_Z. simpl.
  rewrite Pos.mul_1_r, Z.mul_1_r.
  replace (a + - (d * k) * Zpos b) with (a + (- (d * k)) * Zpos b) by ring.
  rewrite Z.div_add by lia. ring.
Qed.

Lemma Qfloor_mod_pos (q : Q) (d : positive) :
  Qfloor (q - inject_Z (Zpos d) * inject_Z (Qfloor (q / inject_Z (Zpos d))))
  = Qfloor q mod Zpos d.
Proof.
  rewrite Qfloor_sub_Z, Qfloor_div_pos.
  pose proof (Z.div_mod (Qfloor q) (Zpos d)). lia.
Qed.

Lemma Qtrunc_floor (q : Q) : 0 <= Qfloor q -> Qtrunc q = Qfloor q.
Proof.
  intros Hq. unfold Qtrunc.
  destruct (Qle_bool 0 q) eqn:E; [reflexivity|].
  exfalso. assert (Hle : (0 <= q)%Q).
  { eapply Qle_trans; [|apply Qfloor_le].
    change 0%Q with (inject_Z 0). rewrite <- Zle_Qle. exact Hq. }
  apply Qle_bool_iff in Hle. congruence.
Qed.

Lemma Qtrunc_Z (z : Z) : Qtrunc (inject_Z z) = z.
Proof.
  unfold Qtrunc. destruct (Qle_bool 0 (inject_Z z));
    [apply Qfloor_Z | apply Qceiling_Z].
Qed.


(** the three integers [format_timestamp] formats, for any finite input *)
Lemma clock_fields (q : Q) :
  py_int (float_floordiv (Finite q) 3600) = Ok (Qfloor q / 3600) /\
  py_int (float_floordiv (float_mod (Finite q) 3600) 60)
    = Ok (Qfloor q mod 3600 / 60) /\
  py_int (float_mod (Finite q) 60) = Ok (Qfloor q mod 60).
Proof.
  unfold float_floordiv, float_mod, py_int. repeat split.
  - rewrite Qtrunc_Z, Qfloor_div_pos. reflexivity.
  - rewrite Qtrunc_Z, Qfloor_div_pos, Qfloor_mod_pos. reflexivity.
  - rewrite Qtrunc_floor; rewrite Qfloor_mod_pos; [reflexivity|].
    apply Z.mod_pos_bound; lia.
Qed.

Lemma format_timestamp_Finite (q : Q) :
  format_timestamp (Finite q)
  = Ok (format_02d (Qfloor q / 3600) ++ colon ++
        format_02d (Qfloor q mod 3600 / 60) ++ colon ++
        format_02d (Qfloor q mod 60)).
Proof.
  unfold format_timestamp.
  destruct (clock_fields q) as (Hh & Hm & Hs).
  rewrite Hh; cbn [rbind]. rewrite Hm; cbn [rbind]. rewrite Hs. reflexivity.
Qed.

Lemma format_duration_Finite (q : Q) :
  format_duration (Finite q)
  = if 0 <? Qfloor q / 60
    then Ok (str_of_int (Qfloor q / 60) ++ [u_fen] ++
             str_of_int (Qfloor q mod 60) ++ [u_miao])
    else Ok (str_of_int (Qfloor q mod 60) ++ [u_miao]).
Proof.
  unfold format_duration.
  destruct (clock_fields q) as (_ & _ & Hs).
  replace (py_int (float_floordiv (Finite q) 60)) with (@Ok Z (Qfloor q / 60)).
  - cbn [rbind]. rewrite Hs. reflexivity.
  - unfold float_floordiv, py_int. rewrite Qtrunc_Z, Qfloor_div_pos. reflexivity.
Qed.

(** ** Decimal text *)




Lemma digits_le_length (f : nat) (n : N) : (1 <= length (digits_le (S f) n))%nat.
Proof. cbn [digits_le length]. lia. Qed.


Lemma digits_length (n : N) : (1 <= length (digits n))%nat.
Proof.
  unfold digits. rewrite length_map, length_rev. apply digits_le_length.
Qed.













(** ** Timestamp formatter *)

Example format_timestamp_frac :
  format_timestamp (Finite 7325.75) = Ok (lit "02:02:05").
Proof. reflexivity. Qed.

Example format_timestamp_100h :
  format_timestamp (Finite 360000) = Ok (lit "100:00:00").
Proof. reflexivity. Qed.

Example format_timestamp_nan : format_timestamp NaN = Raise ValueError.
Proof. reflexivity. Qed.




(** ** Duration label *)




(** ** Trimming, escaping and truncating *)

Lemma count_occ_lstrip (c : char) (s : str) :
  is_space c = false ->
  count_occ N.eq_dec (lstrip s) c = count_occ N.eq_dec s c.
Proof.
  intros Hc. induction s as [|x s IH]; [reflexivity|].
  cbn [lstrip]. destruct (is_space x) eqn:Ex; [|reflexivity].
  rewrite IH. cbn [count_occ].
  destruct (N.eq_dec x c) as [->|]; [congruence | reflexivity].
Qed.

Lemma count_occ_strip (c : char) (s : str) :
  is_space c = false ->
  count_occ N.eq_dec (strip s) c = count_occ N.eq_dec s c.
Proof.
  intros Hc. unfold strip, rstrip.
  rewrite count_occ_rev, count_occ_lstrip, count_occ_rev, count_occ_lstrip;
    auto.
Qed.

Lemma replace_pipe_cons (x : char) (s : str) :
  replace_pipe (x :: s)
  = (if char_eqb x pipe then [backslash; pipe] else [x]) ++ replace_pipe s.
Proof. reflexivity. Qed.

Lemma count_occ_replace_pipe (s : str) :
  count_occ N.eq_dec (replace_pipe s) pipe = count_occ N.eq_dec s pipe.
Proof.
  induction s as [|x s IH]; [reflexivity|].
  rewrite replace_pipe_cons, count_occ_app, IH. unfold char_eqb.
  destruct (N.eqb_spec x pipe) as [->|Hne].
  - reflexivity.
  - cbn [count_occ]. destruct (N.eq_dec x pipe); [contradiction | reflexivity].
Qed.

Lemma replace_pipe_length (s : str) :
  (length s <= length (replace_pipe s))%nat.
Proof.
  induction s as [|x s IH]; [apply le_n|].
  rewrite replace_pipe_cons, length_app.
  destruct (char_eqb x pipe); cbn [length]; lia.
Qed.

Lemma pipes_escaped_nil : pipes_escaped [].
Proof. intros [|i] H; discriminate H. Qed.

Lemma pipes_escaped_cons (c : char) (r : str) :
  c <> pipe -> pipes_escaped r -> pipes_escaped (c :: r).
Proof.
  intros Hc Hr [|i] Hi.
  - cbn in Hi. congruence.
  - cbn [nth_error] in Hi. destruct (Hr i Hi) as (j & -> & Hj).
    exists (S j). split; [reflexivity | exact Hj].
Qed.

Lemma pipes_escaped_pair (r : str) :
  pipes_escaped r -> pipes_escaped (backslash :: pipe :: r).
Proof.
  intros Hr [|[|i]] Hi.
  - discriminate Hi.
  - exists 0%nat. split; reflexivity.
  - cbn [nth_error] in Hi. destruct (Hr i Hi) as (j & -> & Hj).
    exists (S (S j)). split; [reflexivity | exact Hj].
Qed.

Lemma replace_pipe_escaped (s : str) : pipes_escaped (replace_pipe s).
Proof.
  induction s as [|x s IH]; [apply pipes_escaped_nil|].
  rewrite replace_pipe_cons. unfold char_eqb.
  destruct (N.eqb_spec x pipe) as [->|Hne]; cbn [app].
  - apply pipes_escaped_pair, IH.
  - apply pipes_escaped_cons; assumption.
Qed.

Lemma pipes_escaped_firstn (n : nat) (s : str) :
  pipes_escaped s -> pipes_escaped (firstn n s).
Proof.
  intros Hs i Hi. rewrite nth_error_firstn in Hi.
  destruct (Nat.ltb_spec i n) as [Hlt|]; [|discriminate Hi].
  destruct (Hs i Hi) as (j & -> & Hj).
  exists j. split; [reflexivity|].
  rewrite nth_error_firstn.
  destruct (Nat.ltb_spec j n); [exact Hj | lia].
Qed.

Lemma pipes_escaped_app (a b : str) :
  pipes_escaped a -> ~ In pipe b -> pipes_escaped (a ++ b).
Proof.
  intros Ha Hb i Hi. rewrite nth_error_app in Hi.
  destruct (Nat.ltb_spec i (length a)) as [Hlt|Hge].
  - destruct (Ha i Hi) as (j & -> & Hj).
    exists j. split; [reflexivity|].
    rewrite nth_error_app1 by lia. exact Hj.
  - exfalso. apply Hb. eapply nth_error_In. exact Hi.
Qed.

Lemma ellipsis_no_pipe : ~ In pipe ellipsis.
Proof.
  cbn. intros [H|[H|[H|[]]]]; discriminate H.
Qed.

(** the two cases of the cell text *)
Lemma cell_text_cases (raw : str) :
  let text := replace_pipe (strip raw) in
  ((80 < length text)%nat /\ cell_text raw = firstn 77 text ++ ellipsis /\
   length (firstn 77 text) = 77%nat) \/
  ((length text <= 80)%nat /\ cell_text raw = text).
Proof.
  intros text. unfold cell_text. fold text.
  destruct (Nat.ltb_spec 80 (length text)) as [Hlt|Hge].
  - left. repeat split; [assumption|]. rewrite length_firstn. lia.
  - right. split; [assumption | reflexivity].
Qed.

Lemma cell_text_length (raw : str) : (length (cell_text raw) <= 80)%nat.
Proof.
  destruct (cell_text_cases raw) as [(_ & -> & H77)|(Hle & ->)].
  - rewrite length_app, H77. cbn. lia.
  - exact Hle.
Qed.

Lemma cell_text_escaped (raw : str) : pipes_escaped (cell_text raw).
Proof.
  destruct (cell_text_cases raw) as [(_ & -> & _)|(_ & ->)].
  - apply pipes_escaped_app; [|apply ellipsis_no_pipe].
    apply pipes_escaped_firstn, replace_pipe_escaped.
  - apply replace_pipe_escaped.
Qed.

Lemma pipe_not_space : is_space pipe = false.
Proof. reflexivity. Qed.

(** ** Shape of the generated document *)

Lemma Forall2_lookup {A B} (R : A -> B -> Prop) (l : list A) (l' : list B) :
  Forall2 R l l' ->
  forall i x, nth_error l i = Some x ->
              exists y, nth_error l' i = Some y /\ R x y.
Proof.
  induction 1 as [|a b l l' Hab _ IH]; intros [|i] x Hx; try discriminate Hx.
  - injection Hx as <-. exists b. split; [reflexivity | exact Hab].
  - apply (IH i x Hx).
Qed.

(** the first loop appends one block per segment, in order *)
Lemma body_loop_layout (segs : list Segment) :
  forall lines0 lines,
    for_each body_step segs lines0 = Ok lines ->
    exists blocks,
      lines = lines0 ++ concat blocks /\ Forall2 body_block segs blocks.
Proof.
  induction segs as [|seg segs IH]; intros lines0 lines Hrun.
  - injection Hrun as <-. exists []. split; [|constructor].
    cbn [concat]. rewrite app_nil_r. reflexivity.
  - cbn [for_each] in Hrun. unfold body_step at 1 in Hrun.
    destruct (format_timestamp (seg_start seg)) as [start|] eqn:Es;
      cbn [rbind] in Hrun; [|discriminate Hrun].
    destruct (format_timestamp (seg_end seg)) as [end_|] eqn:Ee;
      cbn [rbind] in Hrun; [|discriminate Hrun].
    apply IH in Hrun. destruct Hrun as (blocks & -> & Hblocks).
    exists ([ lit "**[" ++ start ++ arrow ++ end_ ++ lit "]**";
               strip (seg_text seg); [] ] :: blocks).
    split.
    + cbn [concat]. rewrite <- app_assoc. reflexivity.
    + constructor; [|exact Hblocks].
      exists start, end_. repeat split; assumption.
Qed.

(** the second loop appends one row per segment, in order *)
Lemma row_loop_layout (segs : list Segment) :
  forall lines0 lines,
    for_each row_step segs lines0 = Ok lines ->
    exists rows,
      lines = lines0 ++ rows /\
      Forall2 (fun seg row => table_row seg (cell_text (seg_text seg)) row)
              segs rows.
Proof.
  induction segs as [|seg segs IH]; intros lines0 lines Hrun.
  - injection Hrun as <-. exists []. split; [|constructor].
    rewrite app_nil_r. reflexivity.
  - cbn [for_each] in Hrun. unfold row_step at 1 in Hrun.
    destruct (format_timestamp (seg_start seg)) as [start|] eqn:Es;
      cbn [rbind] in Hrun; [|discriminate Hrun].
    apply IH in Hrun. destruct Hrun as (rows & -> & Hrows).
    exists ((lit "| " ++ start ++ lit " | " ++ cell_text (seg_text seg)
               ++ lit " |") :: rows).
    split.
    + rewrite <- app_assoc. reflexivity.
    + constructor; [|exact Hrows].
      exists start. split; [assumption | reflexivity].
Qed.

(** both loops run to their end when every time is finite *)
Lemma body_loop_total (segs : list Segment) :
  forallb seg_finite segs = true ->
  forall lines0, exists lines, for_each body_step segs lines0 = Ok lines.
Proof.
  induction segs as [|seg segs IH]; intros Hfin lines0.
  - exists lines0. reflexivity.
  - cbn [forallb] in Hfin. apply andb_true_iff in Hfin as [Hseg Hrest].
    unfold seg_finite in Hseg. apply andb_true_iff in Hseg as [Hs He].
    cbn [for_each]. unfold body_step at 1.
    destruct (seg_start seg) as [qs| | |]; try discriminate Hs.
    destruct (seg_end seg) as [qe| | |]; try discriminate He.
    rewrite !format_timestamp_Finite. cbn [rbind]. apply IH, Hrest.
Qed.

Lemma row_loop_total (segs : list Segment) :
  forallb seg_finite segs = true ->
  forall lines0, exists lines, for_each row_step segs lines0 = Ok lines.
Proof.
  induction segs as [|seg segs IH]; intros Hfin lines0.
  - exists lines0. reflexivity.
  - cbn [forallb] in Hfin. apply andb_true_iff in Hfin as [Hseg Hrest].
    unfold seg_finite in Hseg. apply andb_true_iff in Hseg as [Hs _].
    cbn [for_each]. unfold row_step at 1.
    destruct (seg_start seg) as [qs| | |]; try discriminate Hs.
    rewrite !format_timestamp_Finite. cbn [rbind]. apply IH, Hrest.
Qed.

Lemma format_duration_total (q : Q) :
  exists label, format_duration (Finite q) = Ok label.
Proof.
  rewrite format_duration_Finite.
  destruct (0 <? Qfloor q / 60); eexists; reflexivity.
Qed.

Section Generator.

Context `{Platform}.

Variables (now : str) (result : Transcription) (video_path : path)
          (video_duration : pyfloat).

Let segments : list Segment := dict_get (tr_segments result) [].

(** the list the generator joins: header, blocks, appendix head, rows and
    the closing empty line *)
Lemma markdown_lines_layout (lines : list str) :
  markdown_lines now result video_path video_duration = Ok lines ->
  exists header blocks rows,
    lines = header ++ concat blocks ++ appendix_head ++ rows ++ [[]] /\
    length header = 11%nat /\
    Forall2 body_block segments blocks /\
    Forall2 (fun seg row => table_row seg (cell_text (seg_text seg)) row)
            segments rows.
Proof.
  unfold markdown_lines. fold segments. intros Hrun.
  destruct (format_duration video_duration) as [label|];
    cbn [rbind] in Hrun; [|discriminate Hrun].
  match type of Hrun with
  | rbind (for_each body_step _ ?h) _ = _ => set (header := h) in *
  end.
  destruct (for_each body_step segments header) as [lines1|] eqn:E1;
    cbn [rbind] in Hrun; [|discriminate Hrun].
  match type of Hrun with
  | rbind (for_each row_step _ ?l) _ = _ =>
      destruct (for_each row_step segments l) as [lines2|] eqn:E2
  end; cbn [rbind] in Hrun; [|discriminate Hrun].
  injection Hrun as <-.
  apply body_loop_layout in E1. destruct E1 as (blocks & -> & Hblocks).
  apply row_loop_layout in E2. destruct E2 as (rows & -> & Hrows).
  exists header, blocks, rows. split; [|split; [reflexivity|split; assumption]].
  unfold appendix_head. rewrite <- !app_assoc. reflexivity.
Qed.

Lemma markdown_lines_total :
  is_finite video_duration = true ->
  forallb seg_finite segments = true ->
  exists lines, markdown_lines now result video_path video_duration = Ok lines.
Proof.
  intros Hd Hsegs. unfold markdown_lines. fold segments.
  destruct video_duration as [q| | |]; try discriminate Hd.
  destruct (format_duration_total q) as (label & ->). cbn [rbind].
  match goal with
  | |- context [for_each body_step segments ?h] =>
      destruct (body_loop_total segments Hsegs h) as (lines1 & ->)
  end.
  cbn [rbind].
  match goal with
  | |- context [for_each row_step segments ?l] =>
      destruct (row_loop_total segments Hsegs l) as (lines2 & ->)
  end.
  cbn [rbind]. eexists. reflexivity.
Qed.

Lemma generate_markdown_lines (doc : str) :
  generate_markdown now result video_path video_duration = Ok doc ->
  exists lines,
    markdown_lines now result video_path video_duration = Ok lines /\
    doc = join_lines lines.
Proof.
  unfold generate_markdown. intros Hdoc.
  destruct (markdown_lines now result video_path video_duration) as [lines|];
    cbn [rbind] in Hdoc; [|discriminate Hdoc].
  injection Hdoc as <-. exists lines. split; reflexivity.
Qed.

End Generator.

Lemma nth_error_skip {A} (pre l : list A) (n k : nat) :
  length pre = n -> nth_error (pre ++ l) (n + k) = nth_error l k.
Proof.
  intros <-. rewrite nth_error_app2 by lia. f_equal. lia.
Qed.

Lemma blocks_length (segs : list Segment) (blocks : list (list str)) :
  Forall2 body_block segs blocks ->
  length (concat blocks) = (3 * length segs)%nat.
Proof.
  induction 1 as [|seg block segs blocks Hb _ IH]; [reflexivity|].
  destruct Hb as (start & end_ & _ & _ & ->).
  cbn [concat length app]. rewrite IH. lia.
Qed.

Lemma blocks_lookup (segs : list Segment) (blocks : list (list str)) :
  Forall2 body_block segs blocks ->
  forall i seg,
    nth_error segs i = Some seg ->
    exists block,
      body_block seg block /\
      forall k, (k < 3)%nat ->
                nth_error (concat blocks) (3 * i + k) = nth_error block k.
Proof.
  induction 1 as [|a block segs blocks Hb _ IH]; intros [|i] seg Hseg;
    try discriminate Hseg.
  - injection Hseg as <-. exists block. split; [exact Hb|].
    destruct Hb as (start & end_ & _ & _ & ->).
    intros [|[|[|k]]] Hk; try reflexivity. lia.
  - destruct (IH i seg Hseg) as (blk & Hblk & Hnth).
    exists blk. split; [exact Hblk|].
    intros k Hk. rewrite <- (Hnth k Hk).
    destruct Hb as (start & end_ & _ & _ & ->).
    replace (3 * S i + k)%nat with (S (S (S (3 * i + k)))) by lia.
    reflexivity.
Qed.

Lemma join_lines_cons (l : str) (rest : list str) :
  rest <> [] -> join_lines (l :: rest) = l ++ newline :: join_lines rest.
Proof. destruct rest; [congruence | reflexivity]. Qed.

(** lines already in the list are left as they are by the loops *)
Lemma body_loop_prefix (segs : list Segment) :
  forall pre lines0,
    for_each body_step segs (pre ++ lines0)
    = match for_each body_step segs lines0 with
      | Ok lines => Ok (pre ++ lines)
      | Raise e => Raise e
      end.
Proof.
  induction segs as [|seg segs IH]; intros pre lines0; [reflexivity|].
  cbn [for_each]. unfold body_step at 1 3.
  destruct (format_timestamp (seg_start seg)) as [start|]; cbn [rbind];
    [|reflexivity].
  destruct (format_timestamp (seg_end seg)) as [end_|]; cbn [rbind];
    [|reflexivity].
  rewrite <- (app_assoc pre lines0). apply IH.
Qed.

Lemma row_loop_prefix (segs : list Segment) :
  forall pre lines0,
    for_each row_step segs (pre ++ lines0)
    = match for_each row_step segs lines0 with
      | Ok lines => Ok (pre ++ lines)
      | Raise e => Raise e
      end.
Proof.
  induction segs as [|seg segs IH]; intros pre lines0; [reflexivity|].
  cbn [for_each]. unfold row_step at 1 3.
  destruct (format_timestamp (seg_start seg)) as [start|]; cbn [rbind];
    [|reflexivity].
  rewrite <- (app_assoc pre lines0). apply IH.
Qed.

Section Document.

Context `{Platform}.

Variables (now : str) (result : Transcription) (video_path : path)
          (video_duration : pyfloat).

Let segments : list Segment := dict_get (tr_segments result) [].

(** where the lines of one segment are in the list the generator joins *)
Lemma segment_lines (lines : list str) (i : nat) (seg : Segment) :
  markdown_lines now result video_path video_duration = Ok lines ->
  nth_error segments i = Some seg ->
  body_text_line lines i = Some (strip (seg_text seg)) /\
  exists row,
    appendix_row_line lines (length segments) i = Some row /\
    table_row seg (cell_text (seg_text seg)) row.
Proof.
  intros Hrun Hseg.
  destruct (markdown_lines_layout _ _ _ _ Hrun)
    as (header & blocks & rows & -> & Hhdr & Hblocks & Hrows).
  fold segments in Hblocks, Hrows.
  assert (Hi : (i < length segments)%nat).
  { apply nth_error_Some. rewrite Hseg. discriminate. }
  pose proof (blocks_length Hblocks) as Hlen.
  pose proof (Forall2_length Hrows) as Hrlen.
  split.
  - unfold body_text_line.
    replace (12 + 3 * i)%nat with (11 + (3 * i + 1))%nat by lia.
    rewrite (nth_error_skip _ _ _ Hhdr).
    rewrite nth_error_app1 by lia.
    destruct (blocks_lookup Hblocks _ Hseg) as (block & Hb & Hnth).
    rewrite Hnth by lia.
    destruct Hb as (start & end_ & _ & _ & ->). reflexivity.
  - destruct (Forall2_lookup Hrows _ Hseg) as (row & Hrow & Hrel).
    exists row. split; [|exact Hrel].
    unfold appendix_row_line.
    replace (17 + 3 * length segments + i)%nat
      with (11 + (3 * length segments + (6 + i)))%nat by lia.
    rewrite (nth_error_skip _ _ _ Hhdr).
    rewrite (nth_error_skip _ _ _ Hlen).
    rewrite (nth_error_skip appendix_head _ i
               (eq_refl : length appendix_head = 6%nat)).
    rewrite nth_error_app1 by lia. exact Hrow.
Qed.

End Document.

(** ** The document generator *)

Example generate_markdown_demo :
  @generate_markdown demo_platform (lit "2024-05-01 12:00:00")
    {| tr_language := None;
       tr_segments := Some [ {| seg_start := Finite 1; seg_end := Finite 62;
                                seg_text := lit " a|b " |} ] |}
    (lit "talk") (Finite 125)
  = Ok (join_lines
          [ lit "# talk";
            [];
            hdr_generated ++ lit "2024-05-01 12:00:00";
            hdr_duration ++ lit "2" ++ [u_fen] ++ lit "5" ++ [u_miao];
            hdr_language ++ lit "unknown";
            hdr_model;
            [];
            lit "---";
            [];
            h2_transcript;
            [];
            lit "**[00:00:01" ++ arrow ++ lit "00:01:02]**";
            lit "a|b";
            [];
            lit "---";
            [];
            h2_appendix;
            [];
            table_head;
            table_rule;
            lit "| 00:00:01 | a" ++ [backslash] ++ lit "|b |";
            [] ]).
Proof. vm_compute. reflexivity. Qed.

Section DocumentClaims.

Context `{Platform}.

Variables (now : str) (result : Transcription) (video_path : path)
          (video_duration : pyfloat).

Let segments : list Segment := dict_get (tr_segments result) [].


(** C3: for the segment number i of a generated document, the body block
    shows the whole trimmed text, however long, while the cell of its
    appendix row is the trimmed, pipe-escaped text itself when that has at
    most 80 characters and otherwise its first 77 characters followed by
    the three-character ellipsis; in particular a trimmed text of 85
    characters is cut in the row and whole in the body. *)
Theorem appendix_truncates_body_keeps (doc : str) (i : nat) (seg : Segment) :
  generate_markdown now result video_path video_duration = Ok doc ->
  nth_error segments i = Some seg ->
  let trimmed := strip (seg_text seg) in
  let escaped := replace_pipe trimmed in
  exists lines row cell,
    doc = join_lines lines /\
    body_text_line lines i = Some trimmed /\
    appendix_row_line lines (length segments) i = Some row /\
    table_row seg cell row /\
    ((80 < length escaped)%nat ->
     cell = firstn 77 escaped ++ ellipsis /\
     length (firstn 77 escaped) = 77%nat) /\
    ((length escaped <= 80)%nat -> cell = escaped) /\
    (length trimmed = 85%nat ->
     cell = firstn 77 escaped ++ ellipsis /\ length cell = 80%nat /\
     body_text_line lines i = Some trimmed).
Proof.
  intros Hdoc Hseg trimmed escaped.
  destruct (generate_markdown_lines _ _ _ _ Hdoc) as (lines & Hlines & ->).
  destruct (segment_lines _ _ _ _ _ Hlines Hseg)
    as (Hbody & row & Hrow & Hrel).
  exists lines, row, (cell_text (seg_text seg)).
  split; [reflexivity|]. split; [exact Hbody|].
  split; [exact Hrow|]. split; [exact Hrel|].
  destruct (cell_text_cases (seg_text seg))
    as [(Hlt & Hcell & H77)|(Hle & Hcell)];
    change (replace_pipe (strip (seg_text seg))) with escaped in Hcell.
  - change (replace_pipe (strip (seg_text seg))) with escaped in Hlt, H77.
    split; [intros _; split; assumption|].
    split; [intros Hle; lia|].
    intros _. rewrite Hcell. split; [reflexivity|]. split; [|exact Hbody].
    rewrite length_app, H77. reflexivity.
  - change (replace_pipe (strip (seg_text seg))) with escaped in Hle.
    split; [intros Hlt; lia|].
    split; [intros _; exact Hcell|].
    intros H85. exfalso.
    pose proof (replace_pipe_length trimmed) as Hgrow.
    fold escaped in Hgrow. lia.
Qed.

(** C10: the cell of every appendix row has at most 80 characters: it is
    either the trimmed, pipe-escaped text, of length at most 80, or 77
    characters of it followed by the 3 characters of the ellipsis, 80 in
    all. *)
Theorem appendix_cell_at_most_80 (doc : str) (i : nat) (seg : Segment) :
  generate_markdown now result video_path video_duration = Ok doc ->
  nth_error segments i = Some seg ->
  let escaped := replace_pipe (strip (seg_text seg)) in
  exists lines row cell,
    doc = join_lines lines /\
    appendix_row_line lines (length segments) i = Some row /\
    table_row seg cell row /\
    (length cell <= 80)%nat /\
    ((cell = escaped /\ (length escaped <= 80)%nat) \/
     (cell = firstn 77 escaped ++ ellipsis /\
      length (firstn 77 escaped) = 77%nat /\
      length ellipsis = 3%nat /\
      length cell = 80%nat)).
Proof.
  intros Hdoc Hseg escaped.
  destruct (generate_markdown_lines _ _ _ _ Hdoc) as (lines & Hlines & ->).
  destruct (segment_lines _ _ _ _ _ Hlines Hseg)
    as (_ & row & Hrow & Hrel).
  exists lines, row, (cell_text (seg_text seg)).
  split; [reflexivity|]. split; [exact Hrow|]. split; [exact Hrel|].
  split; [apply cell_text_length|].
  destruct (cell_text_cases (seg_text seg))
    as [(Hlt & Hcell & H77)|(Hle & Hcell)].
  - right. fold escaped in Hcell, H77. rewrite Hcell.
    repeat split; try assumption.
    rewrite length_app, H77. reflexivity.
  - left. split; assumption.
Qed.

(** C4: for a segment whose text contains [|], the body block shows the
    trimmed text as it is, with every [|] of the text and no backslash
    added, and in the cell of the appendix row every [|] comes right after
    a backslash; when the row is not cut, the cell is the escaped text and
    holds as many [|] as the text. *)
Theorem appendix_escapes_pipes_body_keeps
    (doc : str) (i : nat) (seg : Segment) :
  generate_markdown now result video_path video_duration = Ok doc ->
  nth_error segments i = Some seg ->
  In pipe (seg_text seg) ->
  let trimmed := strip (seg_text seg) in
  exists lines row cell,
    doc = join_lines lines /\
    body_text_line lines i = Some trimmed /\
    In pipe trimmed /\
    count_occ N.eq_dec trimmed pipe = count_occ N.eq_dec (seg_text seg) pipe /\
    appendix_row_line lines (length segments) i = Some row /\
    table_row seg cell row /\
    pipes_escaped cell /\
    ((length (replace_pipe trimmed) <= 80)%nat ->
     cell = replace_pipe trimmed /\
     count_occ N.eq_dec cell pipe = count_occ N.eq_dec (seg_text seg) pipe).
Proof.
  intros Hdoc Hseg Hpipe trimmed.
  destruct (generate_markdown_lines _ _ _ _ Hdoc) as (lines & Hlines & ->).
  destruct (segment_lines _ _ _ _ _ Hlines Hseg)
    as (Hbody & row & Hrow & Hrel).
  assert (Hcount : count_occ N.eq_dec trimmed pipe
                   = count_occ N.eq_dec (seg_text seg) pipe)
    by (apply count_occ_strip, pipe_not_space).
  exists lines, row, (cell_text (seg_text seg)).
  split; [reflexivity|]. split; [exact Hbody|].
  split.
  { apply (count_occ_In N.eq_dec). rewrite Hcount.
    apply (count_occ_In N.eq_dec). exact Hpipe. }
  split; [exact Hcount|]. split; [exact Hrow|]. split; [exact Hrel|].
  split; [apply cell_text_escaped|].
  intros Hle.
  destruct (cell_text_cases (seg_text seg)) as [(Hlt & _)|(_ & Hcell)].
  - fold trimmed in Hlt. lia.
  - fold trimmed in Hcell. rewrite Hcell. split; [reflexivity|].
    rewrite count_occ_replace_pipe. exact Hcount.
Qed.

End DocumentClaims.

Lemma demo_doc_generated :
  @generate_markdown demo_platform demo_now demo_transcription
     (lit "talk") (Finite 125) = Ok demo_doc.
Proof. vm_compute. reflexivity. Qed.

Lemma appendix_truncates_body_keeps_witness :
  exists lines row cell,
    demo_doc = join_lines lines /\
    body_text_line lines 1 = Some (repeat 97%N 85) /\
    appendix_row_line lines 2 1 = Some row /\
    table_row (nth 1 demo_segments (Build_Segment NaN NaN [])) cell row /\
    cell = repeat 97%N 77 ++ ellipsis.
Proof.
  destruct (@appendix_truncates_body_keeps demo_platform demo_now
              demo_transcription (lit "talk") (Finite 125) demo_doc 1%nat
              (nth 1 demo_segments (Build_Segment NaN NaN []))
              demo_doc_generated eq_refl)
    as (lines & row & cell & Hdoc & Hbody & Hrow & Hrel & Hcut & _).
  exists lines, row, cell.
  split; [exact Hdoc|]. split; [exact Hbody|]. split; [exact Hrow|].
  split; [exact Hrel|].
  apply Hcut. vm_compute. lia.
Defined.

Lemma appendix_cell_at_most_80_witness :
  exists lines row cell,
    demo_doc = join_lines lines /\
    appendix_row_line lines 2 1 = Some row /\
    table_row (nth 1 demo_segments (Build_Segment NaN NaN [])) cell row /\
    (length cell <= 80)%nat.
Proof.
  destruct (@appendix_cell_at_most_80 demo_platform demo_now
              demo_transcription (lit "talk") (Finite 125) demo_doc 1%nat
              (nth 1 demo_segments (Build_Segment NaN NaN []))
              demo_doc_generated eq_refl)
    as (lines & row & cell & Hdoc & Hrow & Hrel & Hlen & _).
  exists lines, row, cell. repeat split; assumption.
Defined.

Lemma appendix_escapes_pipes_body_keeps_witness :
  exists lines row cell,
    demo_doc = join_lines lines /\
    body_text_line lines 0 = Some (lit "Hello | world") /\
    appendix_row_line lines 2 0 = Some row /\
    table_row (nth 0 demo_segments (Build_Segment NaN NaN [])) cell row /\
    cell = lit "Hello " ++ [backslash] ++ lit "| world".
Proof.
  assert (Hpipe : In pipe (lit " Hello | world ")).
  { vm_compute. do 7 right. left. reflexivity. }
  destruct (@appendix_escapes_pipes_body_keeps demo_platform demo_now
              demo_transcription (lit "talk") (Finite 125) demo_doc 0%nat
              (nth 0 demo_segments (Build_Segment NaN NaN []))
              demo_doc_generated eq_refl Hpipe)
    as (lines & row & cell & Hdoc & Hbody & _ & _ & Hrow & Hrel & _ & Hcell).
  exists lines, row, cell.
  split; [exact Hdoc|]. split; [exact Hbody|]. split; [exact Hrow|].
  split; [exact Hrel|].
  apply Hcell. vm_compute. lia.
Defined.

(** ** Determinism of the generator *)

(** the generation time only enters the third line; the loops never see it *)
Lemma markdown_lines_now `{Platform} (now : str) (result : Transcription)
    (video_path : path) (video_duration : pyfloat) :
  markdown_lines now result video_path video_duration
  = (duration <- format_duration video_duration ;;
     body <- for_each body_step (dict_get (tr_segments result) [])
               [ hdr_duration ++ duration;
                 hdr_language ++ dict_get (tr_language result) (lit "unknown");
                 hdr_model; []; lit "---"; []; h2_transcript; [] ] ;;
     rows <- for_each row_step (dict_get (tr_segments result) [])
               (body ++ appendix_head) ;;
     Ok ([ lit "# " ++ path_stem video_path; []; hdr_generated ++ now ]
           ++ rows ++ [[]]))%res.
Proof.
  unfold markdown_lines, appendix_head.
  destruct (format_duration video_duration) as [duration|e]; cbn [rbind];
    [|reflexivity].
  match goal with
  | |- context [for_each body_step _ (?a :: ?b :: ?c :: ?rest)] =>
      change (a :: b :: c :: rest) with ([a; b; c] ++ rest)
  end.
  rewrite body_loop_prefix.
  match goal with
  | |- context [for_each body_step ?segs ?l] =>
      destruct (for_each body_step segs l) as [body|e]
  end; cbn [rbind]; [|reflexivity].
  rewrite <- app_assoc.
  rewrite row_loop_prefix.
  match goal with
  | |- context [for_each row_step ?segs ?l] =>
      destruct (for_each row_step segs l) as [rows|e]
  end; cbn [rbind]; [|reflexivity].
  rewrite <- app_assoc. reflexivity.
Qed.

(** C9: the generator is a function of the transcription, the title, the
    video duration and the generation time.  Over all generation times it
    either raises one and the same exception, or returns documents that are
    one fixed text around the time: the title line, an empty line, the
    generation-time line carrying the time given, and a remainder that does
    not depend on it.  The video path only matters through its stem, the
    title. *)
Theorem generate_markdown_deterministic `{Platform}
    (result : Transcription) (video_path : path) (video_duration : pyfloat) :
  ((exists e, forall now,
      generate_markdown now result video_path video_duration = Raise e) \/
   (exists rest, forall now,
      generate_markdown now result video_path video_duration
      = Ok ((lit "# " ++ path_stem video_path) ++ [newline; newline]
            ++ (hdr_generated ++ now) ++ newline :: rest))) /\
  (forall video_path', path_stem video_path' = path_stem video_path ->
     forall now,
       generate_markdown now result video_path' video_duration
       = generate_markdown now result video_path video_duration).
Proof.
  split.
  - destruct (format_duration video_duration) as [duration|e] eqn:Ed.
    2:{ left. exists e. intros now. unfold generate_markdown.
        rewrite markdown_lines_now, Ed. reflexivity. }
    destruct (for_each body_step (dict_get (tr_segments result) [])
                [ hdr_duration ++ duration;
                  hdr_language ++ dict_get (tr_language result) (lit "unknown");
                  hdr_model; []; lit "---"; []; h2_transcript; [] ])
      as [body|e] eqn:Eb.
    2:{ left. exists e. intros now. unfold generate_markdown.
        rewrite markdown_lines_now, Ed. cbn [rbind]. rewrite Eb.
        reflexivity. }
    destruct (for_each row_step (dict_get (tr_segments result) [])
                (body ++ appendix_head)) as [rows|e] eqn:Er.
    2:{ left. exists e. intros now. unfold generate_markdown.
        rewrite markdown_lines_now, Ed. cbn [rbind]. rewrite Eb.
        cbn [rbind]. rewrite Er. reflexivity. }
    right. exists (join_lines (rows ++ [[]])). intros now.
    unfold generate_markdown.
    rewrite markdown_lines_now, Ed. cbn [rbind]. rewrite Eb.
    cbn [rbind]. rewrite Er. cbn [rbind app].
    assert (Hne : rows ++ [[]] <> []) by (destruct rows; discriminate).
    rewrite !join_lines_cons by (assumption || discriminate).
    rewrite <- !app_assoc. reflexivity.
  - intros video_path' Hstem now.
    unfold generate_markdown, markdown_lines. rewrite Hstem. reflexivity.
Qed.

(** ** The orchestrator: what every step leaves untouched *)

Lemma keeps_ret {A} (I : world -> Prop) (a : A) : keeps I (ret a).
Proof. intros w Hw. exact Hw. Qed.

Lemma keeps_raise {A} (I : world -> Prop) (e : exn) : keeps I (@raise A e).
Proof. intros w Hw. exact Hw. Qed.

Lemma keeps_sys_exit {A} (I : world -> Prop) (code : Z) :
  keeps I (@sys_exit A code).
Proof. apply keeps_raise. Qed.

Lemma keeps_lift {A} (I : world -> Prop) (r : may_raise A) : keeps I (lift r).
Proof. intros w Hw. exact Hw. Qed.

Lemma keeps_path_exists (I : world -> Prop) (p : path) :
  keeps I (path_exists p).
Proof. intros w Hw. exact Hw. Qed.

Lemma keeps_bind {A B} (I : world -> Prop) (m : M A) (k : A -> M B) :
  keeps I m -> (forall a, keeps I (k a)) -> keeps I (bind m k).
Proof.
  intros Hm Hk w Hw. unfold bind. specialize (Hm w Hw).
  destruct (m w) as [[a|e] w1]; cbn [snd] in *.
  - apply Hk, Hm.
  - exact Hm.
Qed.

Lemma try_finally_world {A} (body : M A) (fin : M unit) (w : world) :
  snd (try_finally body fin w) = snd (fin (snd (body w))).
Proof.
  unfold try_finally. destruct (body w) as [r w1]. cbn [snd].
  destruct (fin w1) as [[u|e] w2]; reflexivity.
Qed.

Lemma keeps_try_finally {A} (I : world -> Prop) (body : M A) (fin : M unit) :
  keeps I body -> keeps I fin -> keeps I (try_finally body fin).
Proof.
  intros Hb Hf w Hw. rewrite try_finally_world. apply Hf, Hb, Hw.
Qed.

Lemma keeps_print (ps : list path) (line : str) :
  keeps (temps_within ps) (print line).
Proof. intros w Hw. exact Hw. Qed.

Lemma keeps_eprint (ps : list path) (line : str) :
  keeps (temps_within ps) (eprint line).
Proof. intros w Hw. exact Hw. Qed.

Lemma keeps_external {A} (ps : list path) (ev : event)
    (call : list path -> may_raise A * list path) :
  is_temp_event ev = false -> keeps (temps_within ps) (external ev call).
Proof.
  intros Hev w Hw q Hq. unfold external in Hq.
  destruct (call (files w)) as [r fs]. cbn [snd trace] in Hq.
  apply in_app_or in Hq. destruct Hq as [Hq|[Hq|[]]].
  - apply Hw, Hq.
  - subst ev. discriminate Hev.
Qed.

Ltac keeps_step :=
  first [ apply keeps_print | apply keeps_eprint | apply keeps_ret
        | apply keeps_sys_exit | apply keeps_lift | apply keeps_path_exists
        | apply keeps_external; reflexivity
        | apply keeps_bind; [|intros ?]
        | match goal with
          | |- keeps _ (if ?b then _ else _) => destruct b
          | |- keeps _ (match ?x with _ => _ end) => destruct x
          end ].

Lemma keeps_extract_audio `{Tools} (ps : list path) (video audio : path) :
  keeps (temps_within ps) (extract_audio video audio).
Proof. unfold extract_audio. repeat keeps_step. Qed.

Lemma keeps_transcribe_audio `{Tools} (ps : list path) (audio : path)
    (name : str) (language : option str) :
  keeps (temps_within ps) (transcribe_audio audio name language).
Proof. unfold transcribe_audio. repeat keeps_step. Qed.

Lemma keeps_get_video_duration `{Platform} `{Tools} (ps : list path)
    (video : path) :
  keeps (temps_within ps) (get_video_duration video).
Proof. unfold get_video_duration. repeat keeps_step. Qed.

Lemma keeps_pipeline_body `{Platform} `{Tools} (ps : list path) (args : Args)
    (video output audio : path) (duration : pyfloat) :
  keeps (temps_within ps) (pipeline_body args video output audio duration).
Proof.
  unfold pipeline_body.
  repeat first [ apply keeps_extract_audio | apply keeps_transcribe_audio
               | keeps_step ].
Qed.

Lemma on_disk_unlinked (p : path) (fs : list path) :
  on_disk p (filter (fun f => negb (str_eqb p f)) fs) = false.
Proof.
  unfold on_disk. induction fs as [|f fs IH]; [reflexivity|].
  cbn [filter]. destruct (str_eqb p f) eqn:E; cbn [negb]; [exact IH|].
  cbn [existsb]. rewrite E, IH. reflexivity.
Qed.

Lemma no_temps_deleted (w : world) : temps_within [] w -> temps_deleted w.
Proof. intros Hw q Hq. destruct (Hw q Hq). Qed.

(** the [finally] block leaves no temporary file behind *)
Lemma cleanup_deletes `{Tools} (audio : path) (w : world) :
  temps_within [audio] w -> temps_deleted (snd (cleanup audio w)).
Proof.
  intros Hw q Hq. unfold cleanup, bind, path_exists in *.
  destruct (on_disk audio (files w)) eqn:Hdisk.
  - unfold path_unlink, external in *. cbn [snd files trace] in *.
    apply in_app_or in Hq. destruct Hq as [Hq|[Hq|[]]]; [|discriminate Hq].
    destruct (Hw q Hq) as [<-|[]]. apply on_disk_unlinked.
  - cbn [ret snd] in *. destruct (Hw q Hq) as [<-|[]]. exact Hdisk.
Qed.

Lemma tempfile_recorded `{Tools} (w : world) :
  temps_within [] w ->
  exists audio w1,
    named_temporary_file w = (Ok audio, w1) /\ temps_within [audio] w1.
Proof.
  intros Hw. unfold named_temporary_file, external.
  eexists _, _. split; [reflexivity|].
  intros q Hq. cbn [trace] in Hq.
  apply in_app_or in Hq. destruct Hq as [Hq|[Hq|[]]].
  - destruct (Hw q Hq).
  - injection Hq as <-. left. reflexivity.
Qed.

(** a step that keeps [I], followed by anything that ends in [G] *)
Lemma bind_ends {A B} (I G : world -> Prop) (m : M A) (k : A -> M B) :
  keeps I m ->
  (forall w, I w -> G w) ->
  (forall a w, I w -> G (snd (k a w))) ->
  forall w, I w -> G (snd (bind m k w)).
Proof.
  intros Hm HIG Hk w Hw. unfold bind. specialize (Hm w Hw).
  destruct (m w) as [[a|e] w1]; cbn [snd] in *.
  - apply Hk, Hm.
  - apply HIG, Hm.
Qed.

Ltac ends_step :=
  apply (@bind_ends _ _ (temps_within []) temps_deleted);
  [ repeat first [ apply keeps_get_video_duration | keeps_step ]
  | apply no_temps_deleted
  | intros ? ].

Lemma main_deletes_temps `{Platform} `{Tools} (args : Args) :
  forall w, temps_within [] w -> temps_deleted (snd (main args w)).
Proof.
  unfold main. do 7 ends_step.
  intros w Hw. unfold bind.
  destruct (tempfile_recorded Hw) as (audio & w1 & -> & Hw1).
  rewrite try_finally_world. apply cleanup_deletes.
  apply keeps_pipeline_body, Hw1.
Qed.

(** ** Cleanup of the temporary audio file *)

(** C1: in every run of [main], whatever the external tools do to the disk
    and whether each of them returns or raises, a temporary audio file
    that was acquired is not on the disk when the run ends: this holds
    when [main] returns, when it exits after a failed extraction, and when
    an exception of the transcription, the generation or the writing
    escapes. *)
Theorem temp_audio_deleted `{Platform} `{Tools}
    (args : Args) (fs : list path) (audio : path) :
  In (MadeTempfile audio) (trace (snd (main args (boot fs)))) ->
  on_disk audio (files (snd (main args (boot fs)))) = false.
Proof.
  intros Hmade.
  apply (main_deletes_temps args (w := boot fs)); [|exact Hmade].
  intros q Hq. destruct Hq.
Qed.

Lemma temp_audio_deleted_witness :
  fst (@main demo_platform (demo_tools demo_probe 1 (Ok demo_transcription))
         demo_args (boot [lit "talk.mp4"]))
  = Raise (SystemExit 1) /\
  on_disk (lit "/tmp/tmpk3v9.wav")
    (files (snd (@main demo_platform
                   (demo_tools demo_probe 1 (Ok demo_transcription))
                   demo_args (boot [lit "talk.mp4"]))))
  = false.
Proof.
  split; [vm_compute; reflexivity|].
  apply (@temp_audio_deleted demo_platform
           (demo_tools demo_probe 1 (Ok demo_transcription))).
  vm_compute. right. left. reflexivity.
Defined.

Lemma external_run {A} (ev : event)
    (call : list path -> may_raise A * list path) (w : world) :
  external ev call w
  = (fst (call (files w)),
     {| files := snd (call (files w)); out := out w; err := err w;
        trace := trace w ++ [ev] |}).
Proof. unfold external. destruct (call (files w)). reflexivity. Qed.

Lemma bind_run {A B} (m : M A) (k : A -> M B) (w : world) :
  bind m k w
  = match fst (m w) with
    | Ok a => k a (snd (m w))
    | Raise e => (Raise e, snd (m w))
    end.
Proof. unfold bind. destruct (m w) as [[a|e] w1]; reflexivity. Qed.

Lemma get_video_duration_run `{Platform} `{Tools}
    (video : path) (probe : completed) (w : world) :
  probe_prints probe ->
  get_video_duration video w
  = (Ok (probed_duration probe),
     {| files := snd (ffprobe video (files w));
        out := out w;
        err := err w ++ match float_of_str (strip (proc_stdout probe)) with
                        | Some _ => []
                        | None => probe_warnings video probe
                        end;
        trace := trace w ++ [RanFfprobe video] |}).
Proof.
  intros Hprobe. unfold get_video_duration, probed_duration, probe_warnings.
  rewrite bind_run, external_run. cbn [fst snd]. rewrite Hprobe.
  destruct (float_of_str (strip (proc_stdout probe))) as [d|].
  - cbn [ret]. rewrite app_nil_r. reflexivity.
  - destruct (nonempty (strip (proc_stdout probe)));
      destruct (nonempty (strip (proc_stderr probe)));
      cbn [bind eprint ret out err files trace app];
      rewrite <- ?app_assoc; reflexivity.
Qed.

Lemma cleanup_run `{Tools} (audio : path) (w : world) :
  cleanup audio w
  = (Ok tt,
     if on_disk audio (files w)
     then {| files := filter (fun f => negb (str_eqb audio f)) (files w);
             out := out w; err := err w;
             trace := trace w ++ [Unlinked audio] |}
     else w).
Proof.
  unfold cleanup, bind, path_exists.
  destruct (on_disk audio (files w)); reflexivity.
Qed.

Lemma try_finally_cleanup `{Tools} {A} (body : M A) (audio : path) (w : world) :
  try_finally body (cleanup audio) w
  = (fst (body w), snd (cleanup audio (snd (body w)))).
Proof.
  unfold try_finally. destruct (body w) as [r w1]. cbn [fst snd].
  rewrite cleanup_run. reflexivity.
Qed.

Lemma run_eq `{Platform} `{Tools} (args : Args) (w : world) :
  run args w = (exit_status (fst (main args w)), snd (main args w)).
Proof. unfold run. destruct (main args w). reflexivity. Qed.

Lemma extract_audio_run `{Tools} (video audio : path) (w : world)
    (c : completed) :
  fst (ffmpeg video audio (files w)) = Ok c ->
  extract_audio video audio w
  = (Ok (returncode c =? 0),
     {| files := snd (ffmpeg video audio (files w));
        out := out w;
        err := err w ++ (if returncode c =? 0 then []
                         else [err_ffmpeg ++ proc_stderr c]);
        trace := trace w ++ [RanFfmpeg video audio] |}).
Proof.
  intros Hc. unfold extract_audio.
  rewrite bind_run, external_run. cbn [fst snd]. rewrite Hc.
  destruct (returncode c =? 0); cbn [negb].
  - cbn [ret]. rewrite app_nil_r. reflexivity.
  - reflexivity.
Qed.

Lemma transcribe_audio_run `{Tools} (audio : path) (name : str)
    (language : option str) (w : world) (tr : Transcription) :
  engine_returns tr ->
  transcribe_audio audio name language w
  = (Ok tr,
     {| files := snd (whisper_transcribe name audio language
                        (snd (whisper_load_model name (files w))));
        out := out w ++ [info_load_model ++ name; info_start_transcribe];
        err := err w;
        trace := trace w ++ [LoadedModel name; RanTranscribe audio] |}).
Proof.
  intros [Hload Hrun]. unfold transcribe_audio.
  rewrite bind_run. cbn [print fst snd].
  rewrite bind_run, external_run. cbn [fst snd files out err trace].
  rewrite Hload.
  rewrite bind_run. cbn [print fst snd files out err trace].
  rewrite external_run. cbn [files out err trace]. rewrite Hrun.
  rewrite <- !app_assoc. reflexivity.
Qed.

Section Scenarios.

Context `{Platform} `{Tools}.

Variables (args : Args) (w : world) (probe : completed).

Let video : path := path_resolve (args_video args).

Let output : path :=
  match args_output args with
  | None => path_with_suffix_md video
  | Some o => path_resolve o
  end.

Let audio : path := temp_name (snd (ffprobe video (files w))).

Let duration : pyfloat := probed_duration probe.

(** the world in which the [try] statement starts *)
Let at_try (shown : str) : world :=
  {| files := audio :: snd (ffprobe video (files w));
     out := out w ++ [info_input ++ video; info_output ++ output;
                      info_duration ++ shown];
     err := err w ++ match float_of_str (strip (proc_stdout probe)) with
                     | Some _ => []
                     | None => probe_warnings video probe
                     end;
     trace := trace w ++ [RanFfprobe video; MadeTempfile audio] |}.

Lemma main_until_try (shown : str) :
  on_disk video (files w) = true ->
  probe_prints probe ->
  format_duration duration = Ok shown ->
  main args w
  = try_finally (pipeline_body args video output audio duration)
                (cleanup audio) (at_try shown).
Proof.
  intros Hdisk Hprobe Hshown. unfold main. fold video. fold output.
  rewrite bind_run. cbn [path_exists fst snd]. rewrite Hdisk. cbn [negb].
  rewrite bind_run. cbn [ret fst snd].
  rewrite bind_run. cbn [print fst snd].
  rewrite bind_run. cbn [print fst snd].
  rewrite bind_run, (get_video_duration_run _ _ Hprobe). cbn [fst snd].
  fold duration. rewrite bind_run. cbn [lift fst snd]. rewrite Hshown.
  rewrite bind_run. cbn [print fst snd files out err trace].
  rewrite bind_run. unfold named_temporary_file at 1 2.
  rewrite external_run. cbn [fst snd files out err trace].
  fold audio. unfold at_try. rewrite <- !app_assoc. reflexivity.
Qed.

(** the body of the [try] when the decoder fails *)
Lemma body_on_decoder_failure (w2 : world) :
  decoder_fails ->
  exists c,
    returncode c <> 0 /\
    pipeline_body args video output audio duration w2
    = (Raise (SystemExit 1),
       {| files := snd (ffmpeg video audio (files w2));
          out := out w2 ++ [step_1];
          err := err w2 ++ [err_ffmpeg ++ proc_stderr c];
          trace := trace w2 ++ [RanFfmpeg video audio] |}).
Proof.
  intros Hdec.
  destruct (Hdec video audio (files w2)) as (c & Hc & Hrc).
  exists c. split; [exact Hrc|].
  unfold pipeline_body.
  rewrite bind_run. cbn [print fst snd].
  rewrite bind_run. erewrite extract_audio_run by exact Hc. cbn [fst snd].
  apply Z.eqb_neq in Hrc. rewrite Hrc. cbn [negb].
  rewrite bind_run. reflexivity.
Qed.

(** the body of the [try] when every stage succeeds *)
Lemma body_on_success (w2 : world) (tr : Transcription) (doc : str) :
  decoder_succeeds ->
  engine_returns tr ->
  writer_succeeds ->
  generate_markdown clock tr video duration = Ok doc ->
  exists w3,
    pipeline_body args video output audio duration w2 = (Ok tt, w3) /\
    err w3 = err w2 /\
    trace w3 = trace w2 ++ [ RanFfmpeg video audio;
                             LoadedModel (args_model args);
                             RanTranscribe audio;
                             WroteText output doc ].
Proof.
  intros Hdec Heng Hwrite Hdoc.
  destruct (Hdec video audio (files w2)) as (c & Hc & Hrc).
  unfold pipeline_body.
  rewrite bind_run. cbn [print fst snd].
  rewrite bind_run. erewrite extract_audio_run by exact Hc. cbn [fst snd].
  rewrite Hrc. cbn [Z.eqb negb].
  rewrite bind_run. cbn [ret fst snd].
  rewrite bind_run. cbn [print fst snd].
  rewrite bind_run. cbn [print fst snd].
  rewrite bind_run, (transcribe_audio_run _ _ _ _ Heng). cbn [fst snd].
  rewrite bind_run. cbn [print fst snd].
  rewrite bind_run. cbn [lift fst snd]. rewrite Hdoc.
  rewrite bind_run, external_run. cbn [fst snd]. rewrite Hwrite.
  eexists. split; [reflexivity|].
  cbn [files out err trace app]. split.
  - apply app_nil_r.
  - rewrite <- !app_assoc. reflexivity.
Qed.

End Scenarios.

(** ** Fatal and recoverable failures *)

Section Policy.

Context `{Platform} `{Tools}.

Variables (args : Args) (w : world).

Let video : path := path_resolve (args_video args).

Let output : path :=
  match args_output args with
  | None => path_with_suffix_md video
  | Some o => path_resolve o
  end.

Lemma generate_markdown_total (now : str) (tr : Transcription) (v : path)
    (d : pyfloat) :
  is_finite d = true ->
  forallb seg_finite (dict_get (tr_segments tr) []) = true ->
  exists doc, generate_markdown now tr v d = Ok doc.
Proof.
  intros Hd Hsegs.
  destruct (markdown_lines_total now tr v d Hd Hsegs) as (lines & Hlines).
  exists (join_lines lines). unfold generate_markdown. rewrite Hlines.
  reflexivity.
Qed.

(** a run in which the input exists and every stage succeeds *)
Lemma main_on_success (probe : completed) (tr : Transcription) :
  on_disk video (files w) = true ->
  probe_prints probe ->
  is_finite (probed_duration probe) = true ->
  decoder_succeeds ->
  engine_returns tr ->
  writer_succeeds ->
  forallb seg_finite (dict_get (tr_segments tr) []) = true ->
  exists doc,
    generate_markdown clock tr video (probed_duration probe) = Ok doc /\
    fst (main args w) = Ok tt /\
    In (WroteText output doc) (trace (snd (main args w))) /\
    (float_of_str (strip (proc_stdout probe)) = None ->
     incl (probe_warnings video probe) (err (snd (main args w)))).
Proof.
  intros Hdisk Hprobe Hfin Hdec Heng Hwrite Hsegs.
  destruct (generate_markdown_total clock tr video _ Hfin Hsegs)
    as (doc & Hdoc).
  exists doc. split; [exact Hdoc|].
  destruct (probed_duration probe) as [q| | |] eqn:Hq; try discriminate Hfin.
  destruct (format_duration_total q) as (shown & Hshown).
  rewrite <- Hq in Hshown, Hdoc.
  rewrite (@main_until_try _ _ args w probe shown Hdisk Hprobe Hshown).
  rewrite try_finally_cleanup.
  match goal with
  | |- context [pipeline_body _ _ _ ?a _ ?w2] =>
      destruct (@body_on_success _ _ args w probe w2 tr doc Hdec Heng Hwrite Hdoc)
        as (w3 & Hbody & Herr & Htrace)
  end.
  cbn [err trace] in Herr, Htrace. rewrite Hbody. cbn [fst snd].
  split; [reflexivity|].
  rewrite cleanup_run. cbn [snd].
  assert (Hwrote : In (WroteText output doc) (trace w3)).
  { rewrite Htrace. apply in_or_app. right. do 3 right. left. reflexivity. }
  assert (Hwarn : float_of_str (strip (proc_stdout probe)) = None ->
                  incl (probe_warnings video probe) (err w3)).
  { intros Hnone. rewrite Herr. cbn [err]. rewrite Hnone.
    apply incl_appr, incl_refl. }
  match goal with
  | |- context [if ?b then _ else _] => destruct b
  end; cbn [trace err].
  - split; [apply in_or_app; left; exact Hwrote | exact Hwarn].
  - split; [exact Hwrote | exact Hwarn].
Qed.


(** C8: the exit status is 1 when the input video is missing, and then the
    error line is all that happened: no tool ran and no file was made; it
    is 1 when the decoder fails, and then the run ends after the decoder,
    neither loading the model nor transcribing; it is 0 when the input
    exists and every stage succeeds. *)
Theorem exit_status_policy :
  (on_disk video (files w) = false ->
   run args w
   = (1, {| files := files w; out := out w;
            err := err w ++ [err_missing ++ video];
            trace := trace w |})) /\
  (forall probe,
     on_disk video (files w) = true ->
     probe_prints probe ->
     is_finite (probed_duration probe) = true ->
     decoder_fails ->
     fst (run args w) = 1 /\
     exists audio events c,
       trace (snd (run args w))
       = trace w ++ [RanFfprobe video; MadeTempfile audio;
                     RanFfmpeg video audio] ++ events /\
       forallb (fun ev => negb (is_engine_event ev)) events = true /\
       returncode c <> 0 /\
       In (err_ffmpeg ++ proc_stderr c) (err (snd (run args w)))) /\
  (forall probe tr,
     on_disk video (files w) = true ->
     probe_prints probe ->
     is_finite (probed_duration probe) = true ->
     decoder_succeeds ->
     engine_returns tr ->
     writer_succeeds ->
     forallb seg_finite (dict_get (tr_segments tr) []) = true ->
     fst (run args w) = 0).
Proof.
  split; [|split].
  - intros Hdisk. rewrite run_eq. unfold main. fold video.
    rewrite bind_run. cbn [path_exists fst snd]. rewrite Hdisk. cbn [negb].
    rewrite bind_run. reflexivity.
  - intros probe Hdisk Hprobe Hfin Hdec. rewrite run_eq. cbn [fst snd].
    destruct (probed_duration probe) as [q| | |] eqn:Hq; try discriminate Hfin.
    destruct (format_duration_total q) as (shown & Hshown).
    rewrite <- Hq in Hshown.
    rewrite (@main_until_try _ _ args w probe shown Hdisk Hprobe Hshown).
    rewrite try_finally_cleanup.
    match goal with
    | |- context [pipeline_body _ _ _ ?a _ ?w2] =>
        destruct (@body_on_decoder_failure _ _ args w probe w2 Hdec)
          as (c & Hrc & Hbody);
        rewrite Hbody; cbn [fst snd];
        split; [reflexivity|]; exists a
    end.
    rewrite cleanup_run. cbn [snd files].
    match goal with
    | |- context [if ?b then _ else _] => destruct b
    end; cbn [trace err].
    + exists [Unlinked (temp_name (snd (ffprobe video (files w))))], c.
      split; [rewrite <- !app_assoc; reflexivity|].
      split; [reflexivity|]. split; [exact Hrc|].
      apply in_or_app. right. left. reflexivity.
    + exists [], c.
      split; [rewrite <- !app_assoc; reflexivity|].
      split; [reflexivity|]. split; [exact Hrc|].
      apply in_or_app. right. left. reflexivity.
  - intros probe tr Hdisk Hprobe Hfin Hdec Heng Hwrite Hsegs.
    destruct (@main_on_success probe tr Hdisk Hprobe Hfin Hdec Heng Hwrite Hsegs)
      as (doc & _ & Hret & _).
    rewrite run_eq. cbn [fst]. rewrite Hret. reflexivity.
Qed.

End Policy.

Lemma demo_probe_prints (status : Z) (engine : may_raise Transcription) :
  @probe_prints (demo_tools demo_probe status engine) demo_probe.
Proof. intros video fs. reflexivity. Qed.

Lemma demo_decoder_succeeds (engine : may_raise Transcription) :
  @decoder_succeeds (demo_tools demo_probe 0 engine).
Proof. intros video audio fs. eexists. split; reflexivity. Qed.

Lemma demo_decoder_fails (engine : may_raise Transcription) :
  @decoder_fails (demo_tools demo_probe 1 engine).
Proof.
  intros video audio fs. eexists. split; [reflexivity|].
  cbn. discriminate.
Qed.

Lemma demo_engine_returns (status : Z) (tr : Transcription) :
  @engine_returns (demo_tools demo_probe status (Ok tr)) tr.
Proof. split; intros; reflexivity. Qed.

Lemma demo_writer_succeeds (status : Z) (engine : may_raise Transcription) :
  @writer_succeeds (demo_tools demo_probe status engine).
Proof. intros target content fs. reflexivity. Qed.


Lemma exit_status_policy_witness :
  @run demo_platform (demo_tools demo_probe 0 (Ok demo_transcription))
     demo_args (boot [])
  = (1, {| files := []; out := [];
           err := [err_missing ++ lit "talk.mp4"]; trace := [] |}) /\
  fst (@run demo_platform (demo_tools demo_probe 1 (Ok demo_transcription))
         demo_args (boot [lit "talk.mp4"])) = 1 /\
  fst (@run demo_platform (demo_tools demo_probe 0 (Ok demo_transcription))
         demo_args (boot [lit "talk.mp4"])) = 0.
Proof.
  split; [|split].
  - apply (proj1 (@exit_status_policy demo_platform
                    (demo_tools demo_probe 0 (Ok demo_transcription))
                    demo_args (boot []))).
    reflexivity.
  - apply (proj1 (proj2 (@exit_status_policy demo_platform
                           (demo_tools demo_probe 1 (Ok demo_transcription))
                           demo_args (boot [lit "talk.mp4"]))) demo_probe).
    + reflexivity.
    + apply demo_probe_prints.
    + reflexivity.
    + apply demo_decoder_fails.
  - apply (proj2 (proj2 (@exit_status_policy demo_platform
                           (demo_tools demo_probe 0 (Ok demo_transcription))
                           demo_args (boot [lit "talk.mp4"])))
             demo_probe demo_transcription).
    + reflexivity.
    + apply demo_probe_prints.
    + reflexivity.
    + apply demo_decoder_succeeds.
    + apply demo_engine_returns.
    + apply demo_writer_succeeds.
    + reflexivity.
Defined.

Example run_demo_success :
  let r := @run demo_platform (demo_tools demo_probe 0 (Ok demo_transcription))
             demo_args (boot [lit "talk.mp4"]) in
  fst r = 0 /\
  files (snd r) = [lit "talk.mp4.md"; lit "talk.mp4"] /\
  List.map is_engine_event (trace (snd r))
  = [false; false; false; true; true; false; false].
Proof. vm_compute. repeat split. Qed.

Example run_demo_engine_raises :
  let r := @run demo_platform
             (demo_tools demo_probe 0 (Raise (ToolError (lit "out of memory"))))
             demo_args (boot [lit "talk.mp4"]) in
  fst r = 1 /\ files (snd r) = [lit "talk.mp4"].
Proof. vm_compute. repeat split. Qed.

(** * Further properties of the code *)

(** ** The formatters on every float *)

(** X1: [format_timestamp] and [format_duration] return a text on every
    finite float and raise [ValueError] on every other one: on an infinity
    or a NaN the floor division is NaN, which [int] refuses. *)
Theorem formatters_fail_exactly_on_non_finite (x : pyfloat) :
  (is_finite x = true ->
   (exists text, format_timestamp x = Ok text) /\
   (exists label, format_duration x = Ok label)) /\
  (is_finite x = false ->
   format_timestamp x = Raise ValueError /\
   format_duration x = Raise ValueError).
Proof.
  destruct x as [q| | |]; split; intros Hx; try discriminate Hx;
    try (split; reflexivity).
  split.
  - eexists. apply format_timestamp_Finite.
  - apply format_duration_total.
Qed.








(** ** Escaping and trimming *)

Lemma replace_pipe_length_exact (s : str) :
  length (replace_pipe s) = (length s + count_occ N.eq_dec s pipe)%nat.
Proof.
  induction s as [|x s IH]; [reflexivity|].
  rewrite replace_pipe_cons, length_app, IH. unfold char_eqb.
  cbn [count_occ length].
  destruct (N.eqb_spec x pipe) as [->|Hne].
  - destruct (N.eq_dec pipe pipe); [cbn [length]; lia | contradiction].
  - destruct (N.eq_dec x pipe); [contradiction | cbn [length]; lia].
Qed.

(** X4: whether a table cell is cut is decided on the escaped text: the
    cell is cut as soon as the trimmed text and one more character for each
    of its [|] exceed 80, so a text of 80 characters or fewer is cut too
    when its pipes push it over. *)
Theorem cell_cut_counts_escapes (raw : str) :
  let trimmed := strip raw in
  let size := (length trimmed + count_occ N.eq_dec trimmed pipe)%nat in
  ((80 < size)%nat ->
   cell_text raw = firstn 77 (replace_pipe trimmed) ++ ellipsis /\
   length (cell_text raw) = 80%nat) /\
  ((size <= 80)%nat ->
   cell_text raw = replace_pipe trimmed /\ length (cell_text raw) = size).
Proof.
  intros trimmed size.
  assert (Hsize : length (replace_pipe trimmed) = size)
    by apply replace_pipe_length_exact.
  destruct (cell_text_cases raw) as [(Hlt & Hcell & H77)|(Hle & Hcell)];
    fold trimmed in Hcell.
  - fold trimmed in Hlt, H77. split; [|intros Hs; lia].
    intros _. split; [exact Hcell|].
    rewrite Hcell, length_app, H77. reflexivity.
  - fold trimmed in Hle. split; [intros Hs; lia|].
    intros _. split; [exact Hcell|]. rewrite Hcell. exact Hsize.
Qed.

Example cell_cut_80_with_pipe :
  let raw := repeat 97%N 79 ++ [pipe] in
  length (strip raw) = 80%nat /\
  cell_text raw = repeat 97%N 77 ++ ellipsis.
Proof. vm_compute. split; reflexivity. Qed.

Lemma replace_pipe_head (s : str) : hd_error (replace_pipe s) <> Some pipe.
Proof.
  intros Hhd.
  assert (H0 : nth_error (replace_pipe s) 0 = Some pipe)
    by (destruct (replace_pipe s); [discriminate Hhd | exact Hhd]).
  destruct (replace_pipe_escaped s 0%nat H0) as (j & Hj & _).
  discriminate Hj.
Qed.

(** X5: escaping loses nothing: two texts with the same escaped form are
    the same text. *)
Theorem replace_pipe_injective (s s' : str) :
  replace_pipe s = replace_pipe s' -> s = s'.
Proof.
  revert s'. induction s as [|x s IH]; intros [|y s'] Heq.
  - reflexivity.
  - rewrite replace_pipe_cons in Heq. cbn [replace_pipe flat_map] in Heq.
    destruct (char_eqb y pipe); discriminate Heq.
  - rewrite replace_pipe_cons in Heq. cbn [replace_pipe flat_map] in Heq.
    destruct (char_eqb x pipe); discriminate Heq.
  - rewrite !replace_pipe_cons in Heq. unfold char_eqb in Heq.
    destruct (N.eqb_spec x pipe) as [->|Hx];
      destruct (N.eqb_spec y pipe) as [->|Hy]; cbn [app] in Heq.
    + injection Heq as Heq. f_equal. apply IH, Heq.
    + injection Heq as Hy' Heq. exfalso.
      apply (@replace_pipe_head s'). rewrite <- Heq. reflexivity.
    + injection Heq as Hx' Heq. exfalso.
      apply (@replace_pipe_head s). rewrite Heq. reflexivity.
    + injection Heq as -> Heq. f_equal. apply IH, Heq.
Qed.

Lemma replace_pipe_injective_witness :
  lit "a|b" = lit "a|b".
Proof.
  apply replace_pipe_injective. reflexivity.
Defined.












(** ** The generator on every input *)

Lemma body_loop_raises (segs : list Segment) :
  forallb seg_finite segs = false ->
  forall lines0, for_each body_step segs lines0 = Raise ValueError.
Proof.
  induction segs as [|seg segs IH]; intros Hfin lines0; [discriminate Hfin|].
  cbn [forallb] in Hfin. cbn [for_each]. unfold body_step at 1.
  unfold seg_finite in Hfin.
  destruct (seg_start seg) as [qs| | |]; try reflexivity.
  rewrite format_timestamp_Finite. cbn [rbind].
  destruct (seg_end seg) as [qe| | |]; try reflexivity.
  rewrite format_timestamp_Finite. cbn [rbind].
  apply IH. exact Hfin.
Qed.

Lemma generate_markdown_raises `{Platform}
    (now : str) (result : Transcription) (video_path : path)
    (video_duration : pyfloat) :
  is_finite video_duration
  && forallb seg_finite (dict_get (tr_segments result) []) = false ->
  generate_markdown now result video_path video_duration = Raise ValueError.
Proof.
  intros Hfin. unfold generate_markdown, markdown_lines.
  destruct video_duration as [q| | |]; try reflexivity.
  destruct (format_duration_total q) as (label & ->). cbn [rbind].
  cbn [is_finite andb] in Hfin.
  rewrite (body_loop_raises _ Hfin). reflexivity.
Qed.

(** X7: the generator returns a document exactly when the video duration
    and the start and end of every segment are finite; on any other input
    it raises [ValueError], and no other exception ever. *)
Theorem generate_markdown_fails_exactly_on_non_finite `{Platform}
    (now : str) (result : Transcription) (video_path : path)
    (video_duration : pyfloat) :
  let segments := dict_get (tr_segments result) [] in
  (is_finite video_duration && forallb seg_finite segments = true ->
   exists doc,
     generate_markdown now result video_path video_duration = Ok doc) /\
  (is_finite video_duration && forallb seg_finite segments = false ->
   generate_markdown now result video_path video_duration = Raise ValueError).
Proof.
  intros segments. split; intros Hfin.
  - apply andb_true_iff in Hfin as [Hd Hsegs].
    apply generate_markdown_total; assumption.
  - apply generate_markdown_raises. exact Hfin.
Qed.

Example generate_markdown_nan_end :
  @generate_markdown demo_platform demo_now
    {| tr_language := None;
       tr_segments := Some [ {| seg_start := Finite 1; seg_end := NaN;
                                seg_text := lit "x" |} ] |}
    (lit "talk") (Finite 10)
  = Raise ValueError.
Proof. reflexivity. Qed.




Example document_without_segments_key :
  @generate_markdown demo_platform demo_now
    {| tr_language := Some (lit "en"); tr_segments := None |}
    (lit "talk") (Finite 5)
  = Ok (join_lines
          ([ lit "# talk"; []; hdr_generated ++ demo_now;
             hdr_duration ++ lit "5" ++ [u_miao];
             hdr_language ++ lit "en"; hdr_model; []; lit "---"; [];
             h2_transcript; [] ] ++ appendix_head ++ [[]])).
Proof. vm_compute. reflexivity. Qed.

(** X9: the first eleven lines of a generated document are the header:
    the title line made of the stem of the video path, the generation
    time, the duration label of [format_duration], the language, which is
    [unknown] when the result has no [language] key, the engine label and
    the heading of the transcript. *)
Theorem document_header `{Platform} (now : str) (result : Transcription)
    (video_path : path) (video_duration : pyfloat) (doc : str) :
  generate_markdown now result video_path video_duration = Ok doc ->
  exists lines label,
    doc = join_lines lines /\
    format_duration video_duration = Ok label /\
    firstn 11 lines
    = [ lit "# " ++ path_stem video_path;
        [];
        hdr_generated ++ now;
        hdr_duration ++ label;
        hdr_language ++ dict_get (tr_language result) (lit "unknown");
        hdr_model;
        [];
        lit "---";
        [];
        h2_transcript;
        [] ] /\
    (tr_language result = None ->
     nth_error lines 4 = Some (hdr_language ++ lit "unknown")).
Proof.
  intros Hdoc.
  destruct (generate_markdown_lines _ _ _ _ Hdoc) as (lines & Hlines & ->).
  rewrite markdown_lines_now in Hlines.
  destruct (format_duration video_duration) as [label|]; cbn [rbind] in Hlines;
    [|discriminate Hlines].
  match type of Hlines with
  | context [for_each body_step ?segs ?l] =>
      destruct (for_each body_step segs l) as [body|] eqn:Eb
  end; cbn [rbind] in Hlines; [|discriminate Hlines].
  match type of Hlines with
  | context [for_each row_step ?segs ?l] =>
      destruct (for_each row_step segs l) as [rows|] eqn:Er
  end; cbn [rbind] in Hlines; [|discriminate Hlines].
  injection Hlines as <-.
  apply body_loop_layout in Eb. destruct Eb as (blocks & -> & _).
  apply row_loop_layout in Er. destruct Er as (rows' & -> & _).
  eexists _, label. split; [reflexivity|]. split; [reflexivity|].
  cbn [app firstn nth_error]. split; [reflexivity|].
  intros ->. reflexivity.
Qed.

Lemma document_header_witness :
  exists lines,
    demo_doc = join_lines lines /\
    nth_error lines 0 = Some (lit "# talk") /\
    nth_error lines 3
    = Some (hdr_duration ++ lit "2" ++ [u_fen] ++ lit "5" ++ [u_miao]).
Proof.
  destruct (@document_header demo_platform demo_now demo_transcription
              (lit "talk") (Finite 125) demo_doc demo_doc_generated)
    as (lines & label & Hdoc & Hlabel & Hhead & _).
  exists lines. split; [exact Hdoc|].
  injection Hlabel as <-.
  destruct lines as [|l0 [|l1 [|l2 [|l3 rest]]]]; try discriminate Hhead.
  cbn [firstn] in Hhead. injection Hhead as -> _ _ -> _.
  split; reflexivity.
Defined.

(** ** The order of the stages *)

Section Order.

Context `{Platform} `{Tools}.

Lemma extract_audio_trace (video audio : path) (w : world) :
  trace (snd (extract_audio video audio w))
  = trace w ++ [RanFfmpeg video audio].
Proof.
  unfold extract_audio. rewrite bind_run, external_run. cbn [fst snd].
  destruct (fst (ffmpeg video audio (files w))) as [c|e]; [|reflexivity].
  destruct (negb (returncode c =? 0)); reflexivity.
Qed.

Lemma get_video_duration_trace (video : path) (w : world) :
  trace (snd (get_video_duration video w)) = trace w ++ [RanFfprobe video].
Proof.
  unfold get_video_duration. rewrite bind_run, external_run. cbn [fst snd].
  destruct (fst (ffprobe video (files w))) as [c|e]; [|reflexivity].
  destruct (float_of_str (strip (proc_stdout c))); [reflexivity|].
  destruct (nonempty (strip (proc_stdout c)));
    destruct (nonempty (strip (proc_stderr c))); reflexivity.
Qed.

(** the model is loaded first, and the transcription only runs once it is *)
Lemma transcribe_audio_trace (audio : path) (name : str)
    (language : option str) (w : world) :
  trace (snd (transcribe_audio audio name language w))
  = trace w ++ [LoadedModel name; RanTranscribe audio] \/
  (trace (snd (transcribe_audio audio name language w))
   = trace w ++ [LoadedModel name] /\
   exists e, fst (transcribe_audio audio name language w) = Raise e).
Proof.
  unfold transcribe_audio.
  rewrite bind_run. cbn [print fst snd].
  rewrite bind_run, external_run. cbn [fst snd files out err trace].
  destruct (fst (whisper_load_model name (files w))) as [u|e].
  - left. rewrite bind_run. cbn [print fst snd files out err trace].
    rewrite external_run. cbn [snd trace]. rewrite <- app_assoc. reflexivity.
  - right. cbn [fst snd trace]. split; [reflexivity|]. exists e. reflexivity.
Qed.

Lemma pipeline_body_trace (args : Args) (video output audio : path)
    (duration : pyfloat) (w : world) :
  exists doc j,
    trace (snd (pipeline_body args video output audio duration w))
    = trace w ++ firstn j [ RanFfmpeg video audio;
                            LoadedModel (args_model args);
                            RanTranscribe audio;
                            WroteText output doc ] /\
    (1 <= j <= 4)%nat /\
    (fst (pipeline_body args video output audio duration w) = Ok tt ->
     j = 4%nat).
Proof.
  unfold pipeline_body.
  rewrite bind_run. cbn [print fst snd].
  rewrite bind_run.
  match goal with |- context [extract_audio video audio ?w1] =>
    pose proof (extract_audio_trace video audio w1) as Hx;
    destruct (extract_audio video audio w1) as [[extracted|e] w2]
  end; cbn [fst snd trace] in *.
  2:{ exists [], 1%nat. rewrite Hx. repeat split; try lia. discriminate. }
  rewrite bind_run. destruct extracted; cbn [negb sys_exit raise ret fst snd].
  2:{ exists [], 1%nat. rewrite Hx. repeat split; try lia. discriminate. }
  rewrite bind_run. cbn [print fst snd].
  rewrite bind_run. cbn [print fst snd].
  rewrite bind_run.
  match goal with |- context [transcribe_audio audio ?m ?l ?w3] =>
    pose proof (transcribe_audio_trace audio m l w3) as Ht;
    destruct (transcribe_audio audio m l w3) as [[tr|e] w4]
  end; cbn [fst snd trace] in *.
  2:{ destruct Ht as [Ht|[Ht _]]; rewrite Ht, Hx, <- app_assoc.
      - exists [], 3%nat. repeat split; try lia. discriminate.
      - exists [], 2%nat. repeat split; try lia. discriminate. }
  destruct Ht as [Ht|[_ [e He]]]; [|discriminate He].
  rewrite bind_run. cbn [print fst snd].
  rewrite bind_run. cbn [lift fst snd].
  destruct (generate_markdown clock tr video duration) as [markdown|e].
  2:{ cbn [trace]. rewrite Ht, Hx, <- app_assoc.
      exists [], 3%nat. repeat split; try lia. discriminate. }
  rewrite bind_run, external_run. cbn [fst snd files out err trace].
  exists markdown, 4%nat. split; [|split; [lia | reflexivity]].
  destruct (fst (write_text output markdown (files w4)));
    cbn [print snd trace]; rewrite Ht, Hx, <- !app_assoc; reflexivity.
Qed.

Lemma named_temporary_file_run (w : world) :
  named_temporary_file w
  = (Ok (temp_name (files w)),
     {| files := temp_name (files w) :: files w; out := out w; err := err w;
        trace := trace w ++ [MadeTempfile (temp_name (files w))] |}).
Proof. reflexivity. Qed.

(** X10: whatever the external tools do, the external actions of a run are
    the first stages of the pipeline, in its order and none left out:
    probe, temporary file, decoder, model load, transcription, writing of
    the document to the output path; after them comes at most the removal
    of the temporary file.  [main] returns normally only when all six were
    done. *)
Theorem pipeline_order (args : Args) (fs : list path) :
  let video := path_resolve (args_video args) in
  let output := match args_output args with
                | None => path_with_suffix_md video
                | Some o => path_resolve o
                end in
  exists audio doc k tail,
    trace (snd (main args (boot fs)))
    = firstn k (pipeline_events video audio (args_model args) output doc)
      ++ tail /\
    (k <= 6)%nat /\
    (tail = [] \/ ((2 <= k)%nat /\ tail = [Unlinked audio])) /\
    (fst (main args (boot fs)) = Ok tt -> k = 6%nat).
Proof.
  intros video output. unfold main. fold video. fold output.
  rewrite bind_run. cbn [path_exists fst snd boot files].
  destruct (on_disk video fs); cbn [negb].
  2:{ rewrite bind_run. cbn.
      exists [], [], 0%nat, []. repeat split; try lia; [left; reflexivity|].
      discriminate. }
  rewrite bind_run. cbn [ret fst snd].
  rewrite bind_run. cbn [print fst snd].
  rewrite bind_run. cbn [print fst snd].
  rewrite bind_run.
  match goal with |- context [get_video_duration video ?w1] =>
    pose proof (get_video_duration_trace video w1) as Hp;
    destruct (get_video_duration video w1) as [[d|e] w2]
  end; cbn [fst snd trace app] in *.
  2:{ exists [], [], 1%nat, []. rewrite Hp.
      repeat split; try lia; [left; reflexivity | discriminate]. }
  rewrite bind_run. cbn [lift fst snd].
  destruct (format_duration d) as [shown|e].
  2:{ exists [], [], 1%nat, []. cbn [snd]. rewrite Hp.
      repeat split; try lia; [left; reflexivity | discriminate]. }
  rewrite bind_run. cbn [print fst snd].
  rewrite bind_run, named_temporary_file_run.
  cbn [fst snd files out err trace].
  set (audio := temp_name (files w2)).
  rewrite try_finally_cleanup. cbn [fst snd].
  match goal with |- context [pipeline_body args video output audio d ?w3] =>
    destruct (pipeline_body_trace args video output audio d w3)
      as (doc & j & Hb & Hj & Hret);
    destruct (pipeline_body args video output audio d w3) as [r w4]
  end; cbn [fst snd trace] in *; rewrite Hp in Hb.
  rewrite cleanup_run. cbn [snd].
  exists audio, doc, (2 + j)%nat.
  assert (Hshape : trace w4
                   = firstn (2 + j)
                       (pipeline_events video audio (args_model args)
                          output doc)).
  { rewrite Hb. cbn [boot trace app]. reflexivity. }
  destruct (on_disk audio (files w4)); cbn [trace].
  - exists [Unlinked audio]. rewrite Hshape.
    repeat split; try lia; [right; split; [lia | reflexivity]|].
    intros Hr. rewrite (Hret Hr). reflexivity.
  - exists []. rewrite Hshape, app_nil_r.
    repeat split; try lia; [left; reflexivity|].
    intros Hr. rewrite (Hret Hr). reflexivity.
Qed.

End Order.

(** ** How a run ends *)

Lemma cleanup_removes `{Tools} (audio : path) (w : world) :
  on_disk audio (files (snd (cleanup audio w))) = false.
Proof.
  rewrite cleanup_run. cbn [snd].
  destruct (on_disk audio (files w)) eqn:Hdisk; cbn [files].
  - apply on_disk_unlinked.
  - exact Hdisk.
Qed.

Lemma transcribe_audio_load_raises `{Tools} (audio : path) (name : str)
    (language : option str) (w : world) (e : exn) :
  model_load_raises e ->
  transcribe_audio audio name language w
  = (Raise e,
     {| files := snd (whisper_load_model name (files w));
        out := out w ++ [info_load_model ++ name];
        err := err w;
        trace := trace w ++ [LoadedModel name] |}).
Proof.
  intros Hload. unfold transcribe_audio.
  rewrite bind_run. cbn [print fst snd].
  rewrite bind_run, external_run. cbn [fst snd files out err trace].
  rewrite Hload. reflexivity.
Qed.

Lemma transcribe_audio_raises `{Tools} (audio : path) (name : str)
    (language : option str) (w : world) (e : exn) :
  transcription_raises e ->
  transcribe_audio audio name language w
  = (Raise e,
     {| files := snd (whisper_transcribe name audio language
                        (snd (whisper_load_model name (files w))));
        out := out w ++ [info_load_model ++ name; info_start_transcribe];
        err := err w;
        trace := trace w ++ [LoadedModel name; RanTranscribe audio] |}).
Proof.
  intros [Hload Hrun]. unfold transcribe_audio.
  rewrite bind_run. cbn [print fst snd].
  rewrite bind_run, external_run. cbn [fst snd files out err trace].
  rewrite Hload.
  rewrite bind_run. cbn [print fst snd files out err trace].
  rewrite external_run. cbn [files out err trace]. rewrite Hrun.
  rewrite <- !app_assoc. reflexivity.
Qed.

Section Outcomes.

Context `{Platform} `{Tools}.

Variables (args : Args) (w : world) (probe : completed).

Let video : path := path_resolve (args_video args).

Let output : path :=
  match args_output args with
  | None => path_with_suffix_md video
  | Some o => path_resolve o
  end.

Let audio : path := temp_name (snd (ffprobe video (files w))).

Let duration : pyfloat := probed_duration probe.

Let at_try (shown : str) : world :=
  {| files := audio :: snd (ffprobe video (files w));
     out := out w ++ [info_input ++ video; info_output ++ output;
                      info_duration ++ shown];
     err := err w ++ match float_of_str (strip (proc_stdout probe)) with
                     | Some _ => []
                     | None => probe_warnings video probe
                     end;
     trace := trace w ++ [RanFfprobe video; MadeTempfile audio] |}.

(** from the outcome of the [try] body to the outcome of the run *)
Lemma main_after_body (shown : str) (r : may_raise unit) (w3 : world) :
  on_disk video (files w) = true ->
  probe_prints probe ->
  format_duration duration = Ok shown ->
  pipeline_body args video output audio duration (at_try shown) = (r, w3) ->
  fst (main args w) = r /\
  on_disk audio (files (snd (main args w))) = false /\
  out (snd (main args w)) = out w3 /\
  err (snd (main args w)) = err w3 /\
  exists tail,
    trace (snd (main args w)) = trace w3 ++ tail /\
    (tail = [] \/ tail = [Unlinked audio]).
Proof.
  intros Hdisk Hprobe Hshown Hbody.
  rewrite (@main_until_try _ _ args w probe shown Hdisk Hprobe Hshown).
  rewrite try_finally_cleanup. fold video output audio duration.
  change (pipeline_body args video output audio duration _)
    with (pipeline_body args video output audio duration (at_try shown)).
  rewrite Hbody. cbn [fst snd].
  split; [reflexivity|]. split; [apply cleanup_removes|].
  rewrite cleanup_run. cbn [snd].
  destruct (on_disk audio (files w3)); cbn [out err trace].
  - repeat split. exists [Unlinked audio]. split; [reflexivity|].
    right. reflexivity.
  - repeat split. exists []. split; [symmetry; apply app_nil_r|].
    left. reflexivity.
Qed.

(** the body of the [try] up to the call of the engine *)
Lemma body_until_engine (w2 : world) (r : may_raise Transcription)
    (w5 : world) :
  decoder_succeeds ->
  transcribe_audio audio (args_model args) (args_language args)
    {| files := snd (ffmpeg video audio (files w2));
       out := out w2 ++ [step_1; info_extracted ++ audio; step_2];
       err := err w2;
       trace := trace w2 ++ [RanFfmpeg video audio] |}
  = (r, w5) ->
  pipeline_body args video output audio duration w2
  = match r with
    | Raise e => (Raise e, w5)
    | Ok result =>
        match generate_markdown clock result video duration with
        | Raise e =>
            (Raise e, {| files := files w5; out := out w5 ++ [step_3];
                         err := err w5; trace := trace w5 |})
        | Ok markdown =>
            let written :=
              {| files := snd (write_text output markdown (files w5));
                 out := out w5 ++ [step_3]; err := err w5;
                 trace := trace w5 ++ [WroteText output markdown] |} in
            match fst (write_text output markdown (files w5)) with
            | Raise e => (Raise e, written)
            | Ok _ =>
                (Ok tt,
                 {| files := files written;
                    out := out written ++ [info_saved ++ output];
                    err := err written; trace := trace written |})
            end
        end
    end.
Proof.
  intros Hdec Hengine.
  destruct (Hdec video audio (files w2)) as (c & Hc & Hrc).
  unfold pipeline_body.
  rewrite bind_run. cbn [print fst snd].
  rewrite bind_run. erewrite extract_audio_run by exact Hc. cbn [fst snd].
  rewrite Hrc. cbn [Z.eqb negb].
  rewrite bind_run. cbn [ret fst snd].
  rewrite bind_run. cbn [print fst snd].
  rewrite bind_run. cbn [print fst snd files out err trace].
  rewrite app_nil_r, <- !app_assoc. cbn [app].
  rewrite bind_run, Hengine. cbn [fst snd].
  destruct r as [result|e]; [|reflexivity].
  rewrite bind_run. cbn [print fst snd].
  rewrite bind_run. cbn [lift fst snd].
  destruct (generate_markdown clock result video duration) as [markdown|e];
    [|reflexivity].
  rewrite bind_run, external_run. cbn [fst snd files out err trace].
  destruct (fst (write_text output markdown (files w5)));
    [|reflexivity].
  unfold print. cbn [files out err trace].
  rewrite <- app_assoc. reflexivity.
Qed.

End Outcomes.

Section Endings.

Context `{Platform} `{Tools}.

Variables (args : Args) (w : world) (probe : completed).

Let video : path := path_resolve (args_video args).

Let output : path :=
  match args_output args with
  | None => path_with_suffix_md video
  | Some o => path_resolve o
  end.

Let audio : path := temp_name (snd (ffprobe video (files w))).

Let duration : pyfloat := probed_duration probe.

Let at_try (shown : str) : world :=
  {| files := audio :: snd (ffprobe video (files w));
     out := out w ++ [info_input ++ video; info_output ++ output;
                      info_duration ++ shown];
     err := err w ++ match float_of_str (strip (proc_stdout probe)) with
                     | Some _ => []
                     | None => probe_warnings video probe
                     end;
     trace := trace w ++ [RanFfprobe video; MadeTempfile audio] |}.

(** X11: when the engine raises, while loading the model or while
    transcribing, the exception escapes [main] as it is, after the
    temporary file was removed; the run stops at the engine: a failed
    load is not followed by a transcription, and in neither case is a
    document generated or written. *)
Theorem engine_failure_is_fatal (e : exn) :
  on_disk video (files w) = true ->
  probe_prints probe ->
  is_finite duration = true ->
  decoder_succeeds ->
  (model_load_raises e ->
   fst (main args w) = Raise e /\
   on_disk audio (files (snd (main args w))) = false /\
   exists tail,
     trace (snd (main args w))
     = trace w ++ [ RanFfprobe video; MadeTempfile audio;
                    RanFfmpeg video audio; LoadedModel (args_model args) ]
       ++ tail /\
     (tail = [] \/ tail = [Unlinked audio])) /\
  (transcription_raises e ->
   fst (main args w) = Raise e /\
   on_disk audio (files (snd (main args w))) = false /\
   exists tail,
     trace (snd (main args w))
     = trace w ++ [ RanFfprobe video; MadeTempfile audio;
                    RanFfmpeg video audio; LoadedModel (args_model args);
                    RanTranscribe audio ]
       ++ tail /\
     (tail = [] \/ tail = [Unlinked audio])).
Proof.
  intros Hdisk Hprobe Hfin Hdec.
  destruct duration as [q| | |] eqn:Hq; try discriminate Hfin.
  destruct (format_duration_total q) as (shown & Hshown).
  rewrite <- Hq in Hshown.
  split; intros Hengine.
  - pose proof (@body_until_engine _ _ args w probe (at_try shown) _ _ Hdec
                  (transcribe_audio_load_raises _ _ _ _ Hengine)) as Hbody.
    destruct (@main_after_body _ _ args w probe shown _ _
                Hdisk Hprobe Hshown Hbody)
      as (Hret & Hgone & _ & _ & tail & Htrace & Htail).
    split; [exact Hret|]. split; [exact Hgone|].
    exists tail. split; [|exact Htail].
    rewrite Htrace. unfold at_try. cbn [trace].
    rewrite <- !app_assoc. reflexivity.
  - pose proof (@body_until_engine _ _ args w probe (at_try shown) _ _ Hdec
                  (transcribe_audio_raises _ _ _ _ Hengine)) as Hbody.
    destruct (@main_after_body _ _ args w probe shown _ _
                Hdisk Hprobe Hshown Hbody)
      as (Hret & Hgone & _ & _ & tail & Htrace & Htail).
    split; [exact Hret|]. split; [exact Hgone|].
    exists tail. split; [|exact Htail].
    rewrite Htrace. unfold at_try. cbn [trace].
    rewrite <- !app_assoc. reflexivity.
Qed.

(** X12: when the engine returns a segment whose start or end is not a
    finite number, the generation raises [ValueError]; the exception
    escapes [main] after the temporary file was removed, the exit status
    is 1, and nothing is written. *)
Theorem generation_failure_is_fatal (tr : Transcription) :
  on_disk video (files w) = true ->
  probe_prints probe ->
  is_finite duration = true ->
  decoder_succeeds ->
  engine_returns tr ->
  forallb seg_finite (dict_get (tr_segments tr) []) = false ->
  fst (main args w) = Raise ValueError /\
  fst (run args w) = 1 /\
  on_disk audio (files (snd (main args w))) = false /\
  exists tail,
    trace (snd (main args w))
    = trace w ++ [ RanFfprobe video; MadeTempfile audio;
                   RanFfmpeg video audio; LoadedModel (args_model args);
                   RanTranscribe audio ]
      ++ tail /\
    (tail = [] \/ tail = [Unlinked audio]).
Proof.
  intros Hdisk Hprobe Hfin Hdec Heng Hsegs.
  assert (Hgen : generate_markdown clock tr video duration = Raise ValueError).
  { apply generate_markdown_raises. rewrite Hsegs. apply andb_false_r. }
  destruct duration as [q| | |] eqn:Hq; try discriminate Hfin.
  destruct (format_duration_total q) as (shown & Hshown).
  rewrite <- Hq in Hshown, Hgen.
  pose proof (@body_until_engine _ _ args w probe (at_try shown) _ _ Hdec
                (transcribe_audio_run _ _ _ _ Heng)) as Hbody.
  cbv beta iota in Hbody. fold video duration in Hbody.
  rewrite Hgen in Hbody.
  destruct (@main_after_body _ _ args w probe shown _ _
              Hdisk Hprobe Hshown Hbody)
    as (Hret & Hgone & _ & _ & tail & Htrace & Htail).
  split; [exact Hret|].
  split; [rewrite run_eq; cbn [fst]; rewrite Hret; reflexivity|].
  split; [exact Hgone|].
  exists tail. split; [|exact Htail].
  rewrite Htrace. unfold at_try. cbn [trace].
  rewrite <- !app_assoc. reflexivity.
Qed.


(** X14: a probing tool that cannot be run is fatal, unlike one whose
    output does not parse: the exception escapes [main] right after the
    two lines naming input and output, with no warning printed, no
    temporary file made and no other tool run. *)
Theorem probe_launch_failure_is_fatal (e : exn) :
  on_disk video (files w) = true ->
  probe_cannot_run e ->
  main args w
  = (Raise e,
     {| files := snd (ffprobe video (files w));
        out := out w ++ [info_input ++ video; info_output ++ output];
        err := err w;
        trace := trace w ++ [RanFfprobe video] |}).
Proof.
  intros Hdisk Hprobe. unfold main. fold video. fold output.
  rewrite bind_run. cbn [path_exists fst snd]. rewrite Hdisk. cbn [negb].
  rewrite bind_run. cbn [ret fst snd].
  rewrite bind_run. cbn [print fst snd].
  rewrite bind_run. cbn [print fst snd].
  rewrite bind_run. unfold get_video_duration.
  rewrite bind_run, external_run. cbn [fst snd files out err trace].
  rewrite !Hprobe. cbn [fst snd]. rewrite <- app_assoc. reflexivity.
Qed.

End Endings.

Lemma demo_tools_probe (probe : completed) (status : Z)
    (engine : may_raise Transcription) :
  @probe_prints (demo_tools probe status engine) probe.
Proof. intros video fs. reflexivity. Qed.

Lemma demo_tools_decoder (probe : completed)
    (engine : may_raise Transcription) :
  @decoder_succeeds (demo_tools probe 0 engine).
Proof. intros video audio fs. eexists. split; reflexivity. Qed.

Lemma demo_tools_engine (probe : completed) (status : Z)
    (tr : Transcription) :
  @engine_returns (demo_tools probe status (Ok tr)) tr.
Proof. split; intros; reflexivity. Qed.

Lemma demo_tools_engine_raises (probe : completed) (status : Z) (e : exn) :
  @transcription_raises (demo_tools probe status (Raise e)) e.
Proof. split; intros; reflexivity. Qed.


Lemma engine_failure_is_fatal_witness :
  fst (@main demo_platform
         (demo_tools demo_probe 0 (Raise (ToolError (lit "out of memory"))))
         demo_args (boot [lit "talk.mp4"]))
  = Raise (ToolError (lit "out of memory")).
Proof.
  apply (proj2 (@engine_failure_is_fatal demo_platform
                  (demo_tools demo_probe 0
                     (Raise (ToolError (lit "out of memory"))))
                  demo_args (boot [lit "talk.mp4"]) demo_probe
                  (ToolError (lit "out of memory"))
                  eq_refl (demo_tools_probe _ _ _) eq_refl
                  (demo_tools_decoder _ _))).
  apply demo_tools_engine_raises.
Defined.

Lemma generation_failure_is_fatal_witness :
  fst (@run demo_platform (demo_tools demo_probe 0 (Ok endless_transcription))
         demo_args (boot [lit "talk.mp4"])) = 1.
Proof.
  apply (@generation_failure_is_fatal demo_platform
           (demo_tools demo_probe 0 (Ok endless_transcription))
           demo_args (boot [lit "talk.mp4"]) demo_probe endless_transcription
           eq_refl (demo_tools_probe _ _ _) eq_refl
           (demo_tools_decoder _ _) (demo_tools_engine _ _ _) eq_refl).
Defined.


Lemma probe_launch_failure_is_fatal_witness :
  @main demo_platform (no_probe_tools (ToolError (lit "ffprobe not found")))
     demo_args (boot [lit "talk.mp4"])
  = (Raise (ToolError (lit "ffprobe not found")),
     {| files := [lit "talk.mp4"];
        out := [info_input ++ lit "talk.mp4";
                info_output ++ lit "talk.mp4.md"];
        err := [];
        trace := [RanFfprobe (lit "talk.mp4")] |}).
Proof.
  apply (@probe_launch_failure_is_fatal demo_platform
           (no_probe_tools (ToolError (lit "ffprobe not found")))
           demo_args (boot [lit "talk.mp4"])).
  - reflexivity.
  - intros video fs. reflexivity.
Defined.

(** ** What the cleanup touches *)




